(** * One-step numerical integrators of npbrain (integration/integrator.py)

    A shallow embedding of the numeric step closures built by the classes
    [Euler], [RK2], [Heun], [MidPoint], [RK3], [RK4], [RK4Alternative],
    [ExponentialEuler], [MilsteinIto] and [MilsteinStra], of their
    constructors and of the registry [get_integrator].

    The arithmetic of the closures is kept abstract behind the interface
    [Arith]: every closure is a term over [+ - * /], [np.sqrt], [np.exp] and
    the literals of the source.  Two instances are given: the real numbers
    (the reading of the docstrings' formulas) and IEEE binary64 (what Python
    and numpy compute). *)

From Stdlib Require Import ZArith List String Ascii Bool.
From Stdlib Require Import Floats.
From Stdlib Require Import Reals Lra.
Import ListNotations.


(** ** Exceptions and results *)

(** The exceptions the module can raise.  [IntegratorError] carries no
    message here; [ValueError] carries the text built by [get_integrator]. *)
Inductive exn : Type :=
| NotImplementedError
| IntegratorError
| AssertionError
| ValueError (msg : string)
| TypeError
| IndexError
| ZeroDivisionError.

Inductive res (A : Type) : Type :=
| Ok (a : A)
| Raise (e : exn).

Arguments Ok {A} a.
Arguments Raise {A} e.

Definition bind {A B : Type} (m : res A) (k : A -> res B) : res B :=
  match m with
  | Ok a => k a
  | Raise e => Raise e
  end.

Declare Scope py_scope.
Delimit Scope py_scope with py.
Notation "x <- m ;; k" := (bind m (fun x => k))
  (at level 61, m at next level, right associativity) : py_scope.
Notation "' pat <- m ;; k" := (bind m (fun x => match x with pat => k end))
  (at level 61, pat pattern, m at next level, right associativity) : py_scope.

Definition raises {A : Type} (m : res A) : Prop := exists e, m = Raise e.

(** ** Private names and keyword arguments *)

(** Inside a class body Python compiles an identifier that starts with two
    underscores and does not end with two (a private name) under a mangled
    name, the class name put in front: the parameter [__beta] of
    [RK2.get_np_step] is the parameter [_RK2__beta].  The keyword of a call
    is kept as it is written. *)
Fixpoint ends_with_dunder (s : string) : bool :=
  match s with
  | EmptyString => false
  | String c s' =>
      match s' with
      | String c' EmptyString => Ascii.eqb c "_" && Ascii.eqb c' "_"
      | _ => ends_with_dunder s'
      end
  end.

Definition is_private (name : string) : bool :=
  String.prefix "__" name && negb (ends_with_dunder name).

Definition mangle (cls name : string) : string :=
  if is_private name then ("_" ++ cls ++ name)%string else name.

(** A call that passes its last argument by keyword [kw] to a function whose
    parameters are [params]: a keyword that names no parameter raises
    [TypeError] before the body runs. *)
Definition call_with_keyword {A : Type} (params : list string) (kw : string)
  (body : res A) : res A :=
  if existsb (String.eqb kw) params then body else Raise TypeError.

(** ** Numbers *)

(** The operations the closures apply to states, times, step sizes and
    noise.  [of_int] is a Python integer literal met by a float operand,
    [lit_0_5] the float literal [0.5], [is_zero x] the test [x == 0]. *)
Class Arith (V : Type) : Type := {
  vadd : V -> V -> V;
  vsub : V -> V -> V;
  vmul : V -> V -> V;
  vdiv : V -> V -> V;
  np_sqrt : V -> V;
  np_exp : V -> V;
  of_int : Z -> V;
  lit_0_5 : V;
  is_zero : V -> bool
}.

Declare Scope num_scope.
Delimit Scope num_scope with num.
Infix "+" := vadd : num_scope.
Infix "-" := vsub : num_scope.
Infix "*" := vmul : num_scope.
Infix "/" := vdiv : num_scope.

(** The true division of two Python numbers, as in [1 / (2 * __beta)]: a
    zero divisor raises [ZeroDivisionError].  (A division whose dividend is a
    numpy value raises nothing and is written [/].) *)
Definition py_truediv {V : Type} {AR : Arith V} (a b : V) : res V :=
  if is_zero b then Raise ZeroDivisionError else Ok (a / b)%num.

(** ** Python values returned by a drift function *)

Section Values.
Context {V : Type}.

(** A drift function returns either one number or a tuple (the derivative
    followed by auxiliary outputs). *)
Inductive pyval : Type :=
| PNum (x : V)
| PTuple (xs : list V).

(** [val[i]]: out of range raises [IndexError]; a number is not
    subscriptable. *)
Definition getitem (val : pyval) (i : nat) : res V :=
  match val with
  | PTuple xs =>
      match nth_error xs i with
      | Some x => Ok x
      | None => Raise IndexError
      end
  | PNum _ => Raise TypeError
  end.

(** [tuple(val[n:])]: slicing a tuple never raises. *)
Definition slice_from (val : pyval) (n : nat) : res (list V) :=
  match val with
  | PTuple xs => Ok (skipn n xs)
  | PNum _ => Raise TypeError
  end.

(** A value met by an arithmetic operator with a float: a tuple raises
    [TypeError]. *)
Definition as_num (val : pyval) : res V :=
  match val with
  | PNum x => Ok x
  | PTuple _ => Raise TypeError
  end.

(** [a, b = val]: exactly two items are required. *)
Definition unpack2 (val : pyval) : res (V * V) :=
  match val with
  | PTuple [a; b] => Ok (a, b)
  | PTuple _ => Raise (ValueError "values to unpack")
  | PNum _ => Raise TypeError
  end.
End Values.

Arguments pyval V : clear implicits.

(** ** The equation and the configuration *)

Section Model.
Context {V : Type} {AR : Arith V}.
Local Open Scope num_scope.
Local Open Scope py_scope.

(** The diffusion attribute [g] of an equation: a callable, a constant
    ([int], [float] or [ndarray]), or anything else (such as [None]). *)
Inductive diffusion : Type :=
| GFun (g : V -> V -> list V -> V)
| GConst (c : V)
| GOther.

(** Modelled from the spec: the class [DiffEquation] (module
    [diff_equation]) is not part of these sources.  Only the attributes the
    numeric closures read are kept: the drift [f], the diffusion [g] and the
    two capability flags. *)
Record DiffEquation : Type := {
  f : V -> V -> list V -> pyval V;
  g : diffusion;
  is_stochastic : bool;
  is_multi_return : bool
}.

(** Modelled from the spec: the module [profile] is not part of these
    sources.  It holds the step size [dt], the flag of the ahead-of-time
    (numba) backend and the flag [_merge_integral] of the fused mode. *)
Record Profile : Type := {
  get_dt : V;
  is_numba_bk : bool;
  merge_integral : bool
}.

(** A step closure [int_f(y0, t, *args)].  Its last argument is the value
    that [np.random.normal(0.0, 1.0, y0.shape)] returns in this call; the
    closures of deterministic equations draw nothing and ignore it. *)
Definition step_fun : Type := V -> V -> list V -> V -> res (pyval V).

(** ** Euler *)

Definition Euler_get_np_step (p : Profile) (diff_eqs : DiffEquation)
  : res step_fun :=
  let __f := f diff_eqs in
  let __dt := get_dt p in
  if is_stochastic diff_eqs then
    let __dt_sqrt := np_sqrt __dt in
    match g diff_eqs with
    | GFun __g =>
        if is_multi_return diff_eqs then
          Ok (fun y0 t args dW =>
                let val := __f y0 t args in
                v0 <- getitem val 0 ;;
                let df := v0 * __dt in
                let dg := __dt_sqrt * __g y0 t args * dW in
                let y := y0 + df + dg in
                rest <- slice_from val 1 ;;
                Ok (PTuple (y :: rest)))
        else
          Ok (fun y0 t args dW =>
                fv <- as_num (__f y0 t args) ;;
                let df := fv * __dt in
                let dg := __dt_sqrt * __g y0 t args * dW in
                Ok (PNum (y0 + df + dg)))
    | GConst __g =>
        if is_multi_return diff_eqs then
          Ok (fun y0 t args dW =>
                let val := __f y0 t args in
                v0 <- getitem val 0 ;;
                let df := v0 * __dt in
                let dg := __dt_sqrt * __g * dW in
                let y := y0 + df + dg in
                rest <- slice_from val 1 ;;
                Ok (PTuple (y :: rest)))
        else
          (* this closure draws through the local [_normal_sample_(y0)] *)
          Ok (fun y0 t args dW =>
                fv <- as_num (__f y0 t args) ;;
                let df := fv * __dt in
                let dg := __dt_sqrt * __g * dW in
                Ok (PNum (y0 + df + dg)))
    | GOther => Raise AssertionError
    end
  else
    if is_multi_return diff_eqs then
      Ok (fun y0 t args _ =>
            let val := __f y0 t args in
            v0 <- getitem val 0 ;;
            let y := y0 + __dt * v0 in
            rest <- slice_from val 1 ;;
            Ok (PTuple (y :: rest)))
    else
      Ok (fun y0 t args _ =>
            fv <- as_num (__f y0 t args) ;;
            Ok (PNum (y0 + __dt * fv))).

(** ** RK2 *)

Definition RK2_get_np_step (p : Profile) (diff_eqs : DiffEquation)
  (__beta : V) : res step_fun :=
  let __f := f diff_eqs in
  let __dt := get_dt p in
  if is_stochastic diff_eqs then Raise NotImplementedError
  else
    if is_multi_return diff_eqs then
      Ok (fun y0 t args _ =>
            let val := __f y0 t args in
            k1 <- getitem val 0 ;;
            let v := __f (y0 + __beta * __dt * k1) (t + __beta * __dt) args in
            k2 <- getitem v 0 ;;
            w1 <- py_truediv (of_int 1) (of_int 2 * __beta) ;;
            w2 <- py_truediv (of_int 1) (of_int 2 * __beta) ;;
            let y := y0 + __dt * ((of_int 1 - w1) * k1 + w2 * k2) in
            rest <- slice_from val 1 ;;
            Ok (PTuple (y :: rest)))
    else
      Ok (fun y0 t args _ =>
            k1 <- as_num (__f y0 t args) ;;
            let k2 := __f (y0 + __beta * __dt * k1) (t + __beta * __dt) args in
            w1 <- py_truediv (of_int 1) (of_int 2 * __beta) ;;
            w2 <- py_truediv (of_int 1) (of_int 2 * __beta) ;;
            k2 <- as_num k2 ;;
            let y := y0 + __dt * ((of_int 1 - w1) * k1 + w2 * k2) in
            Ok (PNum y)).

(** The parameters of [RK2.get_np_step(diff_eqs, __beta)], as compiled. *)
Definition RK2_get_np_step_params : list string :=
  map (mangle "RK2") ["diff_eqs"; "__beta"]%string.

(** The call [RK2.get_np_step(diff_eqs, __beta=beta)], as it is written in
    [RK2.__init__], [Heun.get_np_step] and [MidPoint.get_np_step]. *)
Definition RK2_get_np_step_kw (p : Profile) (diff_eqs : DiffEquation)
  (beta : V) : res step_fun :=
  call_with_keyword RK2_get_np_step_params "__beta"
    (RK2_get_np_step p diff_eqs beta).

(** ** Heun *)

Definition Heun_get_np_step (p : Profile) (diff_eqs : DiffEquation)
  : res step_fun :=
  let __dt := get_dt p in
  let __f := f diff_eqs in
  if is_stochastic diff_eqs then
    let __dt_sqrt := np_sqrt __dt in
    match g diff_eqs with
    | GFun __g =>
        if is_multi_return diff_eqs then
          Ok (fun y0 t args dW =>
                let val := __f y0 t args in
                v0 <- getitem val 0 ;;
                let df := v0 * __dt in
                let gn := __g y0 t args in
                let y_bar := y0 + gn * dW * __dt_sqrt in
                let gn_bar := __g y_bar t args in
                let dg := lit_0_5 * (gn + gn_bar) * dW * __dt_sqrt in
                let y1 := y0 + df + dg in
                rest <- slice_from val 1 ;;
                Ok (PTuple (y1 :: rest)))
        else
          Ok (fun y0 t args dW =>
                fv <- as_num (__f y0 t args) ;;
                let df := fv * __dt in
                let gn := __g y0 t args in
                let y_bar := y0 + gn * dW * __dt_sqrt in
                let gn_bar := __g y_bar t args in
                let dg := lit_0_5 * (gn + gn_bar) * dW * __dt_sqrt in
                let y1 := y0 + df + dg in
                Ok (PNum y1))
    | _ => Euler_get_np_step p diff_eqs
    end
  else RK2_get_np_step_kw p diff_eqs (of_int 1).

(** ** MidPoint *)

Definition MidPoint_get_np_step (p : Profile) (diff_eqs : DiffEquation)
  : res step_fun :=
  RK2_get_np_step_kw p diff_eqs lit_0_5.

(** ** RK3 *)

Definition RK3_get_np_step (p : Profile) (diff_eqs : DiffEquation)
  : res step_fun :=
  let __f := f diff_eqs in
  let __dt := get_dt p in
  if is_stochastic diff_eqs then Raise NotImplementedError
  else
    if is_multi_return diff_eqs then
      Ok (fun y0 t args _ =>
            let val := __f y0 t args in
            k1 <- getitem val 0 ;;
            k2 <- getitem (__f (y0 + __dt / of_int 2 * k1)
                               (t + __dt / of_int 2) args) 0 ;;
            k3 <- getitem (__f (y0 - __dt * k1 + of_int 2 * __dt * k2)
                               (t + __dt) args) 0 ;;
            let y := y0 + __dt / of_int 6 * (k1 + of_int 4 * k2 + k3) in
            rest <- slice_from val 1 ;;
            Ok (PTuple (y :: rest)))
    else
      Ok (fun y0 t args _ =>
            k1 <- as_num (__f y0 t args) ;;
            k2 <- as_num (__f (y0 + __dt / of_int 2 * k1)
                              (t + __dt / of_int 2) args) ;;
            k3 <- as_num (__f (y0 - __dt * k1 + of_int 2 * __dt * k2)
                              (t + __dt) args) ;;
            Ok (PNum (y0 + __dt / of_int 6 * (k1 + of_int 4 * k2 + k3)))).

(** ** RK4 *)

Definition RK4_get_np_step (p : Profile) (diff_eqs : DiffEquation)
  : res step_fun :=
  let __f := f diff_eqs in
  let __dt := get_dt p in
  if is_stochastic diff_eqs then Raise NotImplementedError
  else
    if is_multi_return diff_eqs then
      Ok (fun y0 t args _ =>
            let val := __f y0 t args in
            k1 <- getitem val 0 ;;
            k2 <- getitem (__f (y0 + __dt / of_int 2 * k1)
                               (t + __dt / of_int 2) args) 0 ;;
            k3 <- getitem (__f (y0 + __dt / of_int 2 * k2)
                               (t + __dt / of_int 2) args) 0 ;;
            k4 <- getitem (__f (y0 + __dt * k3) (t + __dt) args) 0 ;;
            let y := y0 + __dt / of_int 6
                          * (k1 + of_int 2 * k2 + of_int 2 * k3 + k4) in
            rest <- slice_from val 1 ;;
            Ok (PTuple (y :: rest)))
    else
      Ok (fun y0 t args _ =>
            k1 <- as_num (__f y0 t args) ;;
            k2 <- as_num (__f (y0 + __dt / of_int 2 * k1)
                              (t + __dt / of_int 2) args) ;;
            k3 <- as_num (__f (y0 + __dt / of_int 2 * k2)
                              (t + __dt / of_int 2) args) ;;
            k4 <- as_num (__f (y0 + __dt * k3) (t + __dt) args) ;;
            Ok (PNum (y0 + __dt / of_int 6
                           * (k1 + of_int 2 * k2 + of_int 2 * k3 + k4)))).

(** ** RK4Alternative *)

Definition RK4Alternative_get_np_step (p : Profile) (diff_eq : DiffEquation)
  : res step_fun :=
  let __f := f diff_eq in
  let __dt := get_dt p in
  if is_stochastic diff_eq then Raise IntegratorError
  else
    if is_multi_return diff_eq then
      Ok (fun y0 t args _ =>
            let val := __f y0 t args in
            k1 <- getitem val 0 ;;
            k2 <- getitem (__f (y0 + __dt / of_int 3 * k1)
                               (t + __dt / of_int 3) args) 0 ;;
            k3 <- getitem (__f (y0 - __dt / of_int 3 * k1 + __dt * k2)
                               (t + of_int 2 * __dt / of_int 3) args) 0 ;;
            k4 <- getitem (__f (y0 + __dt * k1 - __dt * k2 + __dt * k3)
                               (t + __dt) args) 0 ;;
            let y := y0 + __dt / of_int 8
                          * (k1 + of_int 3 * k2 + of_int 3 * k3 + k4) in
            rest <- slice_from val 1 ;;
            Ok (PTuple (y :: rest)))
    else
      Ok (fun y0 t args _ =>
            k1 <- as_num (__f y0 t args) ;;
            k2 <- as_num (__f (y0 + __dt / of_int 3 * k1)
                              (t + __dt / of_int 3) args) ;;
            k3 <- as_num (__f (y0 - __dt / of_int 3 * k1 + __dt * k2)
                              (t + of_int 2 * __dt / of_int 3) args) ;;
            k4 <- as_num (__f (y0 + __dt * k1 - __dt * k2 + __dt * k3)
                              (t + __dt) args) ;;
            Ok (PNum (y0 + __dt / of_int 8
                           * (k1 + of_int 3 * k2 + of_int 3 * k3 + k4)))).

(** ** ExponentialEuler *)

Definition ExponentialEuler_get_np_step (p : Profile) (diff_eq : DiffEquation)
  : res step_fun :=
  let __f := f diff_eq in
  let __dt := get_dt p in
  if is_stochastic diff_eq then
    let __dt_sqrt := np_sqrt __dt in
    match g diff_eq with
    | GFun __g =>
        if is_multi_return diff_eq then
          Ok (fun y0 t args dW =>
                let val := __f y0 t args in
                dydt <- getitem val 0 ;;
                linear_part <- getitem val 1 ;;
                let dg := __dt_sqrt * __g y0 t args * dW in
                let exp := np_exp (linear_part * __dt) in
                let y1 := y0 + (exp - of_int 1) / linear_part * dydt
                          + exp * dg in
                rest <- slice_from val 2 ;;
                Ok (PTuple (y1 :: rest)))
        else
          Ok (fun y0 t args dW =>
                '(dydt, linear_part) <- unpack2 (__f y0 t args) ;;
                let dg := __dt_sqrt * __g y0 t args * dW in
                let exp := np_exp (linear_part * __dt) in
                let y1 := y0 + (exp - of_int 1) / linear_part * dydt
                          + exp * dg in
                Ok (PNum y1))
    | GConst __g =>
        if is_multi_return diff_eq then
          Ok (fun y0 t args dW =>
                let val := __f y0 t args in
                dydt <- getitem val 0 ;;
                linear_part <- getitem val 1 ;;
                let dg := __dt_sqrt * __g * dW in
                let exp := np_exp (linear_part * __dt) in
                let y1 := y0 + (exp - of_int 1) / linear_part * dydt
                          + exp * dg in
                rest <- slice_from val 1 ;;
                Ok (PTuple (y1 :: rest)))
        else
          Ok (fun y0 t args dW =>
                '(dydt, linear_part) <- unpack2 (__f y0 t args) ;;
                let dg := __dt_sqrt * __g * dW in
                let exp := np_exp (linear_part * __dt) in
                let y1 := y0 + (exp - of_int 1) / linear_part * dydt
                          + exp * dg in
                Ok (PNum y1))
    | GOther => Raise AssertionError
    end
  else
    if is_multi_return diff_eq then
      Ok (fun y0 t args _ =>
            let val := __f y0 t args in
            df <- getitem val 0 ;;
            linear_part <- getitem val 1 ;;
            let y := y0 + (np_exp (linear_part * __dt) - of_int 1)
                          / linear_part * df in
            rest <- slice_from val 2 ;;
            Ok (PTuple (y :: rest)))
    else
      Ok (fun y0 t args _ =>
            '(df, linear_part) <- unpack2 (__f y0 t args) ;;
            let y := y0 + (np_exp (linear_part * __dt) - of_int 1)
                          / linear_part * df in
            Ok (PNum y)).

(** ** MilsteinIto and MilsteinStra *)

Definition MilsteinIto_get_np_step (p : Profile) (diff_eq : DiffEquation)
  : res step_fun :=
  let __dt := get_dt p in
  let __dt_sqrt := np_sqrt __dt in
  let __f := f diff_eq in
  match is_stochastic diff_eq, g diff_eq with
  | true, GFun __g =>
      if is_multi_return diff_eq then
        Ok (fun y0 t args dW =>
              let val := __f y0 t args in
              v0 <- getitem val 0 ;;
              let df := v0 * __dt in
              let g_n := __g y0 t args in
              let dg := g_n * dW * __dt_sqrt in
              let y_n_bar := y0 + df + g_n * __dt_sqrt in
              let g_n_bar := __g y_n_bar t args in
              let y1 := y0 + df + dg
                        + lit_0_5 * (g_n_bar - g_n)
                          * (dW * dW * __dt_sqrt - __dt_sqrt) in
              rest <- slice_from val 1 ;;
              Ok (PTuple (y1 :: rest)))
      else
        Ok (fun y0 t args dW =>
              fv <- as_num (__f y0 t args) ;;
              let df := fv * __dt in
              let g_n := __g y0 t args in
              let dg := g_n * dW * __dt_sqrt in
              let y_n_bar := y0 + df + g_n * __dt_sqrt in
              let g_n_bar := __g y_n_bar t args in
              let y1 := y0 + df + dg
                        + lit_0_5 * (g_n_bar - g_n)
                          * (dW * dW * __dt_sqrt - __dt_sqrt) in
              Ok (PNum y1))
  | _, _ => Euler_get_np_step p diff_eq
  end.

Definition MilsteinStra_get_np_step (p : Profile) (diff_eq : DiffEquation)
  : res step_fun :=
  let __dt := get_dt p in
  let __dt_sqrt := np_sqrt __dt in
  let __f := f diff_eq in
  match is_stochastic diff_eq, g diff_eq with
  | true, GFun __g =>
      if is_multi_return diff_eq then
        Ok (fun y0 t args dW =>
              let val := __f y0 t args in
              v0 <- getitem val 0 ;;
              let df := v0 * __dt in
              let g_n := __g y0 t args in
              let dg := g_n * dW * __dt_sqrt in
              let y_n_bar := y0 + df + g_n * __dt_sqrt in
              let g_n_bar := __g y_n_bar t args in
              let extra_term := lit_0_5 * (g_n_bar - g_n)
                                * (dW * dW * __dt_sqrt) in
              let y1 := y0 + df + dg + extra_term in
              rest <- slice_from val 1 ;;
              Ok (PTuple (y1 :: rest)))
      else
        Ok (fun y0 t args dW =>
              fv <- as_num (__f y0 t args) ;;
              let df := fv * __dt in
              let g_n := __g y0 t args in
              let dg := g_n * dW * __dt_sqrt in
              let y_n_bar := y0 + df + g_n * __dt_sqrt in
              let g_n_bar := __g y_n_bar t args in
              let extra_term := lit_0_5 * (g_n_bar - g_n)
                                * (dW * dW * __dt_sqrt) in
              let y1 := y0 + df + dg + extra_term in
              Ok (PNum y1))
  | _, _ => Euler_get_np_step p diff_eq
  end.

End Model.

Arguments diffusion V : clear implicits.
Arguments DiffEquation V : clear implicits.
Arguments Profile V : clear implicits.
Arguments step_fun V : clear implicits.

(** ** The classes and their constructors *)

(** The ten integrator classes, as [get_integrator] returns them. *)
Inductive Scheme : Type :=
| Euler | MidPoint | Heun | RK2 | RK3 | RK4 | RK4Alternative
| ExponentialEuler | MilsteinIto | MilsteinStra.

Section Construction.
Context {V : Type} {AR : Arith V}.
Local Open Scope py_scope.

(** The bodies of [get_nb_step] that write code with sympy and with the
    expression methods of [DiffEquation] are outside these sources: what
    class [c]'s own generator yields (a text or an exception) on an
    equation and its extra arguments is a parameter. *)
Variable nb_code :
  Scheme -> Profile V -> DiffEquation V -> list V -> res string.

(** [c.get_nb_step(diff_eq, *args)]: the dispatch that is written in the
    source around the generators. *)
Definition get_nb_step (c : Scheme) (p : Profile V) (diff_eq : DiffEquation V)
  (args : list V) : res string :=
  match c with
  | MidPoint =>
      if is_stochastic diff_eq then Raise NotImplementedError
      else nb_code RK2 p diff_eq [lit_0_5]
  | Heun =>
      if is_stochastic diff_eq then
        match g diff_eq with
        | GFun _ => nb_code Heun p diff_eq []
        | _ => nb_code Euler p diff_eq []
        end
      else nb_code RK2 p diff_eq [of_int 1]
  | MilsteinIto | MilsteinStra =>
      match is_stochastic diff_eq, g diff_eq with
      | true, GFun _ => nb_code c p diff_eq []
      | _, _ => nb_code Euler p diff_eq []
      end
  | _ => nb_code c p diff_eq args
  end.

(** An integrator object: [__call__] applies [update_func]. *)
Record Integrator : Type := {
  diff_eq : DiffEquation V;
  update_code : option string;
  update_func : step_fun V
}.

(** [if profile.is_numba_bk(): self._update_code = self.get_nb_step(...)] *)
Definition set_update_code (p : Profile V) (code : res string)
  : res (option string) :=
  if is_numba_bk p then (c <- code ;; Ok (Some c)) else Ok None.

(** The constructor shared by every class but [ExponentialEuler]. *)
Definition init_with (p : Profile V) (eq : DiffEquation V)
  (code : res string) (func : res (step_fun V)) : res Integrator :=
  uc <- set_update_code p code ;;
  uf <- func ;;
  Ok {| diff_eq := eq; update_code := uc; update_func := uf |}.

Definition Euler_init (p : Profile V) (eq : DiffEquation V) : res Integrator :=
  init_with p eq (get_nb_step Euler p eq []) (Euler_get_np_step p eq).

Definition RK2_init (p : Profile V) (eq : DiffEquation V) (beta : V)
  : res Integrator :=
  init_with p eq (get_nb_step RK2 p eq [beta]) (RK2_get_np_step_kw p eq beta).

Definition Heun_init (p : Profile V) (eq : DiffEquation V) : res Integrator :=
  init_with p eq (get_nb_step Heun p eq []) (Heun_get_np_step p eq).

Definition MidPoint_init (p : Profile V) (eq : DiffEquation V) : res Integrator :=
  init_with p eq (get_nb_step MidPoint p eq []) (MidPoint_get_np_step p eq).

Definition RK3_init (p : Profile V) (eq : DiffEquation V) : res Integrator :=
  init_with p eq (get_nb_step RK3 p eq []) (RK3_get_np_step p eq).

Definition RK4_init (p : Profile V) (eq : DiffEquation V) : res Integrator :=
  init_with p eq (get_nb_step RK4 p eq []) (RK4_get_np_step p eq).

Definition RK4Alternative_init (p : Profile V) (eq : DiffEquation V)
  : res Integrator :=
  init_with p eq (get_nb_step RK4Alternative p eq [])
    (RK4Alternative_get_np_step p eq).

Definition ExponentialEuler_init (p : Profile V) (eq : DiffEquation V)
  : res Integrator :=
  uc <- set_update_code p (get_nb_step ExponentialEuler p eq []) ;;
  if negb (merge_integral p) then Raise IntegratorError
  else
    uf <- ExponentialEuler_get_np_step p eq ;;
    Ok {| diff_eq := eq; update_code := uc; update_func := uf |}.

Definition MilsteinIto_init (p : Profile V) (eq : DiffEquation V)
  : res Integrator :=
  init_with p eq (get_nb_step MilsteinIto p eq [])
    (MilsteinIto_get_np_step p eq).

Definition MilsteinStra_init (p : Profile V) (eq : DiffEquation V)
  : res Integrator :=
  init_with p eq (get_nb_step MilsteinStra p eq [])
    (MilsteinStra_get_np_step p eq).

End Construction.

(** ** The registry *)

Local Open Scope string_scope.

(** A Python [str] is represented by its UTF-8 encoding: equality with a
    literal and concatenation are those of the encodings. *)

(** Lower-casing of the ASCII letters. *)
Definition lower_ascii (c : ascii) : ascii :=
  let n := N_of_ascii c in
  if (65 <=? n)%N && (n <=? 90)%N then ascii_of_N (n + 32) else c.

Fixpoint lower (s : string) : string :=
  match s with
  | EmptyString => EmptyString
  | String c s' => String (lower_ascii c) (lower s')
  end.

(** A string of ASCII characters only (every byte below 128). *)
Fixpoint ascii_only (s : string) : bool :=
  match s with
  | EmptyString => true
  | String c s' => (N_of_ascii c <? 128)%N && ascii_only s'
  end.

(** [str.lower]: on an ASCII string it lower-cases the letters [A-Z]; on any
    other string it applies Unicode's lower-case mapping, a table that is not
    part of these sources and is the parameter [unicode_lower]. *)
Definition str_lower (unicode_lower : string -> string) (s : string)
  : string :=
  if ascii_only s then lower s else unicode_lower s.

Definition get_integrator (unicode_lower : string -> string)
  (method : string) : res Scheme :=
  let method := str_lower unicode_lower method in
  if method =? "euler" then Ok Euler
  else if method =? "midpoint" then Ok MidPoint
  else if method =? "heun" then Ok Heun
  else if method =? "rk2" then Ok RK2
  else if method =? "rk3" then Ok RK3
  else if method =? "rk4" then Ok RK4
  else if method =? "rk4_alternative" then Ok RK4Alternative
  else if method =? "exponential" then Ok ExponentialEuler
  else if method =? "milstein" then Ok MilsteinIto
  else if method =? "milstein_ito" then Ok MilsteinIto
  else if method =? "milstein_stra" then Ok MilsteinStra
  else Raise (ValueError ("Unknown method: " ++ method ++ ".")).

(** The method names of the registry's documentation. *)
Definition method_names : list string :=
  ["euler"; "midpoint"; "heun"; "rk2"; "rk3"; "rk4"; "rk4_alternative";
   "exponential"; "milstein"; "milstein_ito"; "milstein_stra"].

(** The registry as a table: each name with the class it stands for. *)
Definition method_table : list (string * Scheme) :=
  [("euler", Euler); ("midpoint", MidPoint); ("heun", Heun); ("rk2", RK2);
   ("rk3", RK3); ("rk4", RK4); ("rk4_alternative", RK4Alternative);
   ("exponential", ExponentialEuler); ("milstein", MilsteinIto);
   ("milstein_ito", MilsteinIto); ("milstein_stra", MilsteinStra)].

(** [sub in s]: the text [sub] occurs somewhere in [s]. *)
Definition occurs_in (sub s : string) : bool :=
  match String.index 0 sub s with
  | Some _ => true
  | None => false
  end.

(** ** Two arithmetics *)

(** Real numbers: the arithmetic in which the docstrings state the schemes. *)
#[export] Instance R_Arith : Arith R := {
  vadd := Rplus;
  vsub := Rminus;
  vmul := Rmult;
  vdiv := Rdiv;
  np_sqrt := sqrt;
  np_exp := exp;
  of_int := IZR;
  lit_0_5 := (5 / 10)%R;
  is_zero := fun x => if Req_dec_T x 0 then true else false
}.

(** An integer literal converted to binary64 (exact below [2^53]). *)
Definition float_of_int (z : Z) : float :=
  match z with
  | Z0 => 0%float
  | Zpos _ => PrimFloat.of_uint63 (Uint63.of_Z z)
  | Zneg q => PrimFloat.opp (PrimFloat.of_uint63 (Uint63.of_Z (Zpos q)))
  end.

(** IEEE binary64, round to nearest even: Python's [float] and numpy's
    [float64].  [np.exp] is a library function; it is a parameter [exp64]. *)
Definition float_Arith (exp64 : float -> float) : Arith float := {|
  vadd := PrimFloat.add;
  vsub := PrimFloat.sub;
  vmul := PrimFloat.mul;
  vdiv := PrimFloat.div;
  np_sqrt := PrimFloat.sqrt;
  np_exp := exp64;
  of_int := float_of_int;
  lit_0_5 := 0.5%float;
  is_zero := fun x => PrimFloat.eqb x 0
|}.

(** * Reference definitions and example equations *)

(** What a drift function returns for a derivative [y'] and auxiliary
    outputs [aux], in the shape its [is_multi_return] flag announces; the
    same shape is the one a step closure gives back. *)
Definition returned {V : Type} (multi : bool) (y : V) (aux : list V)
  : pyval V :=
  if multi then PTuple (y :: aux) else PNum y.

(** The two-stage scheme as the specification words it, for a drift [fd]
    and a diffusion [gd] that each return one number: the predictor carries
    the drift, and both drift and diffusion are averaged. *)
Definition Heun_spec_step {V : Type} {AR : Arith V}
  (dt : V) (fd gd : V -> V -> list V -> V)
  (y0 t : V) (args : list V) (xi : V) : V :=
  let y_pred :=
    (y0 + fd y0 t args * dt + gd y0 t args * np_sqrt dt * xi)%num in
  (y0 + dt * (fd y0 t args + fd y_pred t args) / of_int 2
   + np_sqrt dt * xi * (gd y0 t args + gd y_pred t args) / of_int 2)%num.

(** ** Equations over the real numbers *)

Section RealExamples.
Local Open Scope R_scope.

(** [dy = y dt + y dW]: drift and diffusion both equal to the state. *)
Definition geometric : DiffEquation R :=
  {| f := fun y _ _ => PNum y;
     g := GFun (fun y _ _ => y);
     is_stochastic := true;
     is_multi_return := false |}.

(** [dy/dt = -y]. *)
Definition decay : DiffEquation R :=
  {| f := fun y _ _ => PNum (- y);
     g := GOther;
     is_stochastic := false;
     is_multi_return := false |}.

Definition profile_of (dt : R) : Profile R :=
  {| get_dt := dt; is_numba_bk := false; merge_integral := false |}.

(** [dy = -y dt + 0.5 dW]: a constant diffusion coefficient. *)
Definition additive : DiffEquation R :=
  {| f := fun y _ _ => PNum (- y);
     g := GConst (1 / 2);
     is_stochastic := true;
     is_multi_return := false |}.

(** The fused mode switched on, the numba backend off. *)
Definition fused_profile_of (dt : R) : Profile R :=
  {| get_dt := dt; is_numba_bk := false; merge_integral := true |}.

(** A code generator that always yields the same text. *)
Definition nb_fixed (_ : Scheme) (_ : Profile R) (_ : DiffEquation R)
  (_ : list R) : res string := Ok "pass"%string.

End RealExamples.

(** ** Equations over binary64 *)

(** A specification float that is an infinity or a NaN. *)
Definition nonfinite_SF (x : spec_float) : bool :=
  match x with
  | S754_infinity _ | S754_nan => true
  | _ => false
  end.

(** The binary64 numbers nearest to [0.1] and to [0.9]: what Python reads
    for these two literals. *)
Definition float_0_1 : float := 0x1.999999999999ap-4%float.
Definition float_0_9 : float := 0x1.ccccccccccccdp-1%float.

(** [dy/dt = -y] over binary64. *)
Definition decay64 : DiffEquation float :=
  {| f := fun y _ _ => PNum (PrimFloat.opp y);
     g := GOther;
     is_stochastic := false;
     is_multi_return := false |}.

(** [dy/dt = 0*y + 1], with its linear coefficient [0.0] as second output. *)
Definition constant_rate64 : DiffEquation float :=
  {| f := fun _ _ _ => PTuple [1%float; 0%float];
     g := GOther;
     is_stochastic := false;
     is_multi_return := false |}.

Definition profile64 (dt : float) (numba merge : bool) : Profile float :=
  {| get_dt := dt; is_numba_bk := numba; merge_integral := merge |}.

(** ** Definitions for the further properties *)

(** The auxiliary outputs of a returned tuple: everything after its first
    item. *)
Definition aux_of {V : Type} (val : pyval V) : list V :=
  match val with
  | PTuple (_ :: aux) => aux
  | _ => []
  end.

(** [callable(g)]. *)
Definition callable {V : Type} (d : diffusion V) : bool :=
  match d with
  | GFun _ => true
  | _ => false
  end.

(** The diffusion coefficient the closures use at a point, when [g] is a
    callable or a constant. *)
Definition g_at {V : Type} (d : diffusion V) (y t : V) (args : list V)
  : option V :=
  match d with
  | GFun gf => Some (gf y t args)
  | GConst c => Some c
  | GOther => None
  end.

(** What a constructor leaves in the integrator it returns: the equation,
    the closure of [get_np_step], and the generated code exactly when the
    numba backend is on. *)
Definition well_built {V : Type} (p : Profile V) (eq : DiffEquation V)
  (code : res string) (func : res (step_fun V)) (it : @Integrator V) : Prop :=
  diff_eq it = eq
  /\ func = Ok (update_func it)
  /\ (if is_numba_bk p
      then exists c, code = Ok c /\ update_code it = Some c
      else update_code it = None).

(** The polynomial [1 + z + z^2/2! + ... + z^n/n!] of a scheme of order [n]
    on the linear test equation. *)
Fixpoint taylor_exp (n : nat) (z : R) : R :=
  match n with
  | O => 1%R
  | S k => (taylor_exp k z + z ^ n / INR (fact n))%R
  end.

(** The linear test equation [dy/dt = lam*y]. *)
Definition linear_test (lam : R) : DiffEquation R :=
  {| f := fun y _ _ => PNum (lam * y)%R;
     g := GOther;
     is_stochastic := false;
     is_multi_return := false |}.

(** A quadrature problem [dy/dt = t*t]: the drift ignores the state. *)
Definition quadrature_square : DiffEquation R :=
  {| f := fun _ t _ => PNum (t * t)%R;
     g := GOther;
     is_stochastic := false;
     is_multi_return := false |}.

(** [dy/dt = a*y + b], returned with its linear coefficient [a]. *)
Definition affine_with_linear (a b : R) : DiffEquation R :=
  {| f := fun y _ _ => PTuple [(a * y + b)%R; a];
     g := GOther;
     is_stochastic := false;
     is_multi_return := false |}.

(** [dy = (a*y + b) dt + c dW], returned with its linear coefficient. *)
Definition affine_sde_with_linear (a b c : R) : DiffEquation R :=
  {| f := fun y _ _ => PTuple [(a * y + b)%R; a];
     g := GConst c;
     is_stochastic := true;
     is_multi_return := false |}.

(** [dy = -y dt + (1 + t) dW]: a callable diffusion that ignores the state. *)
Definition additive_callable : DiffEquation R :=
  {| f := fun y _ _ => PNum (- y)%R;
     g := GFun (fun _ t _ => (1 + t)%R);
     is_stochastic := true;
     is_multi_return := false |}.

(** [dy/dt = -y] returned with two auxiliary outputs. *)
Definition decay_with_aux : DiffEquation R :=
  {| f := fun y t _ => PTuple [(- y)%R; y; t];
     g := GOther;
     is_stochastic := false;
     is_multi_return := true |}.

(** A stochastic equation whose diffusion is neither callable nor numeric. *)
Definition malformed_sde : DiffEquation R :=
  {| f := fun y _ _ => PNum (- y)%R;
     g := GOther;
     is_stochastic := true;
     is_multi_return := false |}.

(** A multi-return equation whose drift forgets the linear coefficient. *)
Definition no_linear_part : DiffEquation R :=
  {| f := fun y _ _ => PTuple [(- y)%R];
     g := GOther;
     is_stochastic := false;
     is_multi_return := true |}.

(** The numba backend switched on. *)
Definition numba_profile_of (dt : R) (merge : bool) : Profile R :=
  {| get_dt := dt; is_numba_bk := true; merge_integral := merge |}.

(** A code generator that always fails the same way. *)
Definition nb_failing (_ : Scheme) (_ : Profile R) (_ : DiffEquation R)
  (_ : list R) : res string := Raise IndexError.

(** * Properties *)

(** ** Facts that hold in every arithmetic *)

Section Generic.
Context {V : Type} {AR : Arith V}.
Local Open Scope num_scope.

Lemma raises_Raise (A : Type) (e : exn) : raises (@Raise A e).
Proof. exists e; reflexivity. Qed.

Lemma not_raises_Ok (A : Type) (a : A) : ~ raises (Ok a).
Proof. intros [e He]; discriminate He. Qed.

Lemma init_with_raises (nb : res string) (p : Profile V)
  (eq : DiffEquation V) (e : exn) :
  raises (init_with p eq nb (Raise e)).
Proof.
  unfold init_with, set_update_code.
  destruct (is_numba_bk p); [destruct nb as [c | e']|]; simpl;
    apply raises_Raise.
Qed.

Lemma init_with_no_backend (nb : res string) (p : Profile V)
  (eq : DiffEquation V) (e : exn) :
  is_numba_bk p = false -> init_with p eq nb (Raise e) = Raise e.
Proof. intros Hbk; unfold init_with, set_update_code; rewrite Hbk; reflexivity. Qed.

Lemma RK2_get_np_step_kw_raises (p : Profile V) (eq : DiffEquation V)
  (beta : V) :
  RK2_get_np_step_kw p eq beta = Raise TypeError.
Proof. reflexivity. Qed.

(** C4. On an equation flagged stochastic, the closure builders of RK2, RK3
    and RK4 raise [NotImplementedError] and the one of RK4Alternative raises
    [IntegratorError]; the four constructors raise and return no integrator.
    With the numba backend off the constructors of RK3, RK4 and
    RK4Alternative raise exactly these errors, but the constructor of RK2
    raises [TypeError]: its keyword call never reaches the builder. *)
Theorem RK_schemes_on_stochastic
  (nb_code : Scheme -> Profile V -> DiffEquation V -> list V -> res string)
  (p : Profile V) (eq : DiffEquation V) (beta : V) :
  is_stochastic eq = true ->
  (RK2_get_np_step p eq beta = Raise NotImplementedError
   /\ RK3_get_np_step p eq = Raise NotImplementedError
   /\ RK4_get_np_step p eq = Raise NotImplementedError
   /\ RK4Alternative_get_np_step p eq = Raise IntegratorError)
  /\ (raises (RK2_init nb_code p eq beta)
      /\ raises (RK3_init nb_code p eq)
      /\ raises (RK4_init nb_code p eq)
      /\ raises (RK4Alternative_init nb_code p eq))
  /\ (is_numba_bk p = false ->
      RK2_init nb_code p eq beta = Raise TypeError
      /\ RK3_init nb_code p eq = Raise NotImplementedError
      /\ RK4_init nb_code p eq = Raise NotImplementedError
      /\ RK4Alternative_init nb_code p eq = Raise IntegratorError).
Proof.
  intros Hs.
  assert (H2 : RK2_get_np_step p eq beta = Raise NotImplementedError)
    by (unfold RK2_get_np_step; rewrite Hs; reflexivity).
  assert (H3 : RK3_get_np_step p eq = Raise NotImplementedError)
    by (unfold RK3_get_np_step; rewrite Hs; reflexivity).
  assert (H4 : RK4_get_np_step p eq = Raise NotImplementedError)
    by (unfold RK4_get_np_step; rewrite Hs; reflexivity).
  assert (H4a : RK4Alternative_get_np_step p eq = Raise IntegratorError)
    by (unfold RK4Alternative_get_np_step; rewrite Hs; reflexivity).
  unfold RK2_init, RK3_init, RK4_init, RK4Alternative_init.
  rewrite RK2_get_np_step_kw_raises, H2, H3, H4, H4a.
  split; [repeat split | split].
  - repeat split; apply init_with_raises.
  - intros Hbk; repeat split; apply init_with_no_backend; exact Hbk.
Qed.


(** C7. MidPoint builds no step function: [MidPoint.get_np_step] passes
    [0.5] to [RK2.get_np_step] under the keyword [__beta], which names no
    parameter of it, and raises [TypeError] on every equation, and so does the
    call in the constructor of RK2; called with [0.5] by position,
    [RK2.get_np_step] does build a step function on a deterministic
    equation. *)
Theorem MidPoint_get_np_step_keyword_error
  (nb_code : Scheme -> Profile V -> DiffEquation V -> list V -> res string)
  (p : Profile V) (eq : DiffEquation V) :
  existsb (String.eqb "__beta") RK2_get_np_step_params = false
  /\ MidPoint_get_np_step p eq = Raise TypeError
  /\ raises (MidPoint_init nb_code p eq)
  /\ raises (RK2_init nb_code p eq lit_0_5)
  /\ (is_numba_bk p = false ->
      MidPoint_init nb_code p eq = Raise TypeError
      /\ RK2_init nb_code p eq lit_0_5 = Raise TypeError)
  /\ (is_stochastic eq = false ->
      exists sr, RK2_get_np_step p eq lit_0_5 = Ok sr).
Proof.
  unfold MidPoint_init, RK2_init, MidPoint_get_np_step.
  rewrite RK2_get_np_step_kw_raises.
  split; [reflexivity |].
  split; [reflexivity |].
  split; [apply init_with_raises |].
  split; [apply init_with_raises |].
  split.
  - intros Hbk; split; apply init_with_no_backend; exact Hbk.
  - intros Hs; unfold RK2_get_np_step; rewrite Hs.
    destruct (is_multi_return eq); eexists; reflexivity.
Qed.

(** Had the keyword bound the parameter, MidPoint would be RK2 at
    [beta = 0.5]: the body that the call names is the same function. *)
Lemma MidPoint_intended_delegation (p : Profile V) (eq : DiffEquation V) :
  call_with_keyword ["diff_eqs"; "__beta"]%string "__beta"
    (RK2_get_np_step p eq lit_0_5)
  = RK2_get_np_step p eq lit_0_5.
Proof. reflexivity. Qed.

(** C8. On a stochastic equation whose diffusion is a constant, the step
    function built by Heun is the one built by Euler: both exist and, given
    the same drawn noise, return the same result for every [(y0, t, args)],
    which is the Euler-Maruyama update [y0 + f*dt + sqrt(dt)*g*xi]. *)
Theorem Heun_constant_noise_is_Euler
  (p : Profile V) (eq : DiffEquation V) (c : V) :
  is_stochastic eq = true ->
  g eq = GConst c ->
  exists sh se,
    Heun_get_np_step p eq = Ok sh
    /\ Euler_get_np_step p eq = Ok se
    /\ (forall y0 t args xi, sh y0 t args xi = se y0 t args xi)
    /\ (forall y0 t args xi fv aux,
           f eq y0 t args = returned (is_multi_return eq) fv aux ->
           se y0 t args xi =
             Ok (returned (is_multi_return eq)
                   (y0 + fv * get_dt p + np_sqrt (get_dt p) * c * xi) aux)).
Proof.
  intros Hs Hg.
  unfold Heun_get_np_step, Euler_get_np_step; rewrite Hs, Hg.
  destruct (is_multi_return eq); do 2 eexists;
    (split; [reflexivity | split; [reflexivity | split; [reflexivity |]]]);
    intros y0 t args xi fv aux Hf; cbv beta zeta; rewrite Hf; reflexivity.
Qed.

(** The Euler step of a deterministic equation, in any arithmetic. *)
Lemma Euler_ode_step (p : Profile V) (eq : DiffEquation V)
  (y0 t : V) (args : list V) (xi fv : V) (aux : list V) :
  is_stochastic eq = false ->
  f eq y0 t args = returned (is_multi_return eq) fv aux ->
  exists step,
    Euler_get_np_step p eq = Ok step
    /\ step y0 t args xi =
         Ok (returned (is_multi_return eq) (y0 + get_dt p * fv) aux).
Proof.
  intros Hs Hf; unfold Euler_get_np_step; rewrite Hs.
  destruct (is_multi_return eq); eexists; (split; [reflexivity |]);
    cbv beta zeta; rewrite Hf; reflexivity.
Qed.

(** C6. ExponentialEuler on a multi-return equation whose drift returns
    [(df, linear, *aux)]: the closure of a deterministic equation and the
    closure of a stochastic equation with a callable diffusion return
    [(y1, *aux)], the linear coefficient left out; the closure of a stochastic
    equation with a constant diffusion returns [(y1, linear, *aux)]. *)
Theorem ExponentialEuler_constant_noise_returns_linear
  (p : Profile V) (gf : V -> V -> list V -> V) (c : V)
  (df lin : V) (aux : list V) (y0 t : V) (args : list V) (xi : V) :
  let drift := fun (_ _ : V) (_ : list V) => PTuple (df :: lin :: aux) in
  let e := np_exp (lin * get_dt p) in
  (exists step,
      ExponentialEuler_get_np_step p
        {| f := drift; g := GOther;
           is_stochastic := false; is_multi_return := true |} = Ok step
      /\ step y0 t args xi =
           Ok (PTuple (y0 + (e - of_int 1) / lin * df :: aux)))
  /\ (exists step,
         ExponentialEuler_get_np_step p
           {| f := drift; g := GFun gf;
              is_stochastic := true; is_multi_return := true |} = Ok step
         /\ step y0 t args xi =
              Ok (PTuple
                    (y0 + (e - of_int 1) / lin * df
                     + e * (np_sqrt (get_dt p) * gf y0 t args * xi) :: aux)))
  /\ (exists step,
         ExponentialEuler_get_np_step p
           {| f := drift; g := GConst c;
              is_stochastic := true; is_multi_return := true |} = Ok step
         /\ step y0 t args xi =
              Ok (PTuple
                    (y0 + (e - of_int 1) / lin * df
                     + e * (np_sqrt (get_dt p) * c * xi) :: lin :: aux))).
Proof.
  cbv zeta; repeat split; eexists; (split; [reflexivity |]); reflexivity.
Qed.

End Generic.

(** ** The registry *)

Lemma lower_ascii_idem (c : ascii) : lower_ascii (lower_ascii c) = lower_ascii c.
Proof. destruct c as [[] [] [] [] [] [] [] []]; vm_compute; reflexivity. Qed.

Lemma lower_idem (s : string) : lower (lower s) = lower s.
Proof.
  induction s as [| c s IH]; simpl; [reflexivity |].
  rewrite lower_ascii_idem, IH; reflexivity.
Qed.

Lemma lower_ascii_below_128 (c : ascii) :
  (N_of_ascii c <? 128)%N = true -> (N_of_ascii (lower_ascii c) <? 128)%N = true.
Proof. destruct c as [[] [] [] [] [] [] [] []]; vm_compute; trivial. Qed.

Lemma lower_ascii_only (s : string) :
  ascii_only s = true -> ascii_only (lower s) = true.
Proof.
  induction s as [| c s IH]; simpl; [reflexivity |].
  intros H; apply andb_true_iff in H; destruct H as [Hc Hs].
  rewrite (lower_ascii_below_128 c Hc), (IH Hs); reflexivity.
Qed.

(** On ASCII strings [str.lower] is idempotent, whatever the Unicode table. *)
Lemma str_lower_ascii_idem (u : string -> string) (s : string) :
  ascii_only s = true -> str_lower u (str_lower u s) = str_lower u s.
Proof.
  intros H; unfold str_lower; rewrite H, (lower_ascii_only s H).
  apply lower_idem.
Qed.

(** The registry reads nothing of a name but its lower-cased form: it
    resolves the name by the table, and rejects it when the table has no row
    for it. *)
Lemma registry_by_table (u : string -> string) (name : string) (c : Scheme) :
  get_integrator u name = Ok c <-> In (str_lower u name, c) method_table.
Proof.
  unfold get_integrator, method_table.
  generalize (str_lower u name); intros m.
  repeat
    match goal with
    | |- context [String.eqb m ?k] =>
        destruct (String.eqb_spec m k) as [-> | ?];
        [split;
         [intros H; injection H as <-; simpl; auto 20
         | simpl; intros H;
           repeat (destruct H as [H | H]; [congruence |]);
           destruct H] |]
    end.
  split; [discriminate |].
  simpl; intros H.
  repeat (destruct H as [H | H]; [congruence |]).
  destruct H.
Qed.

Lemma registry_unknown (u : string -> string) (name : string) :
  ~ In (str_lower u name) method_names ->
  get_integrator u name =
    Raise (ValueError ("Unknown method: " ++ str_lower u name ++ ".")).
Proof.
  unfold get_integrator, method_names.
  generalize (str_lower u name); intros m Hn.
  repeat
    match goal with
    | |- context [String.eqb m ?k] =>
        destruct (String.eqb_spec m k) as [-> | ?];
        [exfalso; apply Hn; simpl; tauto |]
    end.
  reflexivity.
Qed.

(** C5 (amended). [get_integrator] looks a name up by its lower-cased form:
    it gives the same answer for a name and for [name.lower()] whenever the
    name is ASCII (and for any name on which [str.lower] is idempotent);
    ["milstein"] and ["milstein_ito"] both give the class MilsteinIto; a name
    resolves to a class exactly when its lower-cased form is a row of the
    table for that class; and a name whose lower-cased form is none of the
    documented names raises a [ValueError] whose message is
    ["Unknown method: "], the lower-cased form of the name, and ["."]. *)
Theorem get_integrator_lookup (unicode_lower : string -> string)
  (name : string) :
  (ascii_only name = true ->
   get_integrator unicode_lower name
   = get_integrator unicode_lower (str_lower unicode_lower name))
  /\ (str_lower unicode_lower (str_lower unicode_lower name)
      = str_lower unicode_lower name ->
      get_integrator unicode_lower name
      = get_integrator unicode_lower (str_lower unicode_lower name))
  /\ (get_integrator unicode_lower "milstein" = Ok MilsteinIto
      /\ get_integrator unicode_lower "milstein_ito" = Ok MilsteinIto)
  /\ (forall c,
         get_integrator unicode_lower name = Ok c
         <-> In (str_lower unicode_lower name, c) method_table)
  /\ (~ In (str_lower unicode_lower name) method_names ->
      get_integrator unicode_lower name =
        Raise (ValueError
                 ("Unknown method: " ++ str_lower unicode_lower name ++ "."))).
Proof.
  assert (Hidem :
    str_lower unicode_lower (str_lower unicode_lower name)
    = str_lower unicode_lower name ->
    get_integrator unicode_lower name
    = get_integrator unicode_lower (str_lower unicode_lower name)).
  { intros H; unfold get_integrator; rewrite H; reflexivity. }
  split; [| split; [exact Hidem | split; [split; reflexivity | split]]].
  - intros Ha; apply Hidem, str_lower_ascii_idem; exact Ha.
  - intros c; apply registry_by_table.
  - apply registry_unknown.
Qed.

Lemma get_integrator_lookup_witness :
  get_integrator (fun s => s) "not_a_method" =
    Raise (ValueError "Unknown method: not_a_method.")
  /\ get_integrator (fun s => s) "RK4" = get_integrator (fun s => s) "rk4".
Proof.
  split.
  - apply (proj2 (proj2 (proj2 (proj2
             (get_integrator_lookup (fun s => s) "not_a_method"))))).
    simpl; intuition discriminate.
  - apply (proj1 (get_integrator_lookup (fun s => s) "RK4")); reflexivity.
Defined.

(** C5 as stated fails on the message: looking up ["FOO"] raises a
    [ValueError] whose message is ["Unknown method: foo."]; the string that
    was passed, ["FOO"], does not occur in it. *)
Lemma get_integrator_message_is_lower_cased :
  get_integrator (fun s => s) "FOO"
  = Raise (ValueError "Unknown method: foo.")
  /\ occurs_in "FOO" "Unknown method: foo." = false
  /\ occurs_in "foo" "Unknown method: foo." = true.
Proof. repeat split. Qed.

(** ** Heun with functional noise *)

Section HeunFunctional.
Context {V : Type} {AR : Arith V}.
Local Open Scope num_scope.

(** C1 (amended). On a stochastic equation with a callable diffusion, the
    step function built by Heun predicts [y_bar = y0 + g(y0,t)*xi*sqrt(dt)]
    (the drift takes no part in the predictor) and returns
    [y0 + f(y0,t)*dt + 0.5*(g(y0,t) + g(y_bar,t))*xi*sqrt(dt)]: the drift is
    evaluated once, at [y0], and only the diffusion is averaged. *)
Theorem Heun_functional_noise_step
  (p : Profile V) (eq : DiffEquation V) (gf : V -> V -> list V -> V)
  (y0 t : V) (args : list V) (xi fv : V) (aux : list V) :
  is_stochastic eq = true ->
  g eq = GFun gf ->
  f eq y0 t args = returned (is_multi_return eq) fv aux ->
  exists step,
    Heun_get_np_step p eq = Ok step
    /\ let dt := get_dt p in
       let gn := gf y0 t args in
       let y_bar := y0 + gn * xi * np_sqrt dt in
       step y0 t args xi =
         Ok (returned (is_multi_return eq)
               (y0 + fv * dt
                + lit_0_5 * (gn + gf y_bar t args) * xi * np_sqrt dt) aux).
Proof.
  intros Hs Hg Hf; unfold Heun_get_np_step; rewrite Hs, Hg.
  destruct (is_multi_return eq); eexists; (split; [reflexivity |]);
    cbv beta zeta; rewrite Hf; reflexivity.
Qed.

End HeunFunctional.

Section HeunReal.
Local Open Scope R_scope.

Lemma sqrt_quarter : sqrt (1 / 4) = 1 / 2.
Proof.
  replace (1 / 4) with ((1 / 2) * (1 / 2)) by lra.
  apply sqrt_square; lra.
Qed.

Lemma Heun_functional_noise_step_witness :
  exists step,
    Heun_get_np_step (profile_of (1 / 4)) geometric = Ok step
    /\ step 1 0 [] 1 =
         Ok (PNum (1 + 1 * (1 / 4)
                   + 5 / 10 * (1 + (1 + 1 * 1 * sqrt (1 / 4))) * 1
                     * sqrt (1 / 4))).
Proof.
  exact (Heun_functional_noise_step (profile_of (1 / 4)) geometric
           (fun y _ _ => y) 1 0 [] 1 1 [] eq_refl eq_refl eq_refl).
Defined.

(** C1 as stated fails: on [dy = y dt + y dW] with [dt = 1/4], [y0 = 1] and
    the noise draw [xi = 1], the Heun step function returns [15/8], whereas
    the predictor-corrector with averaged drift gives [65/32]. *)
Lemma Heun_np_step_differs_from_spec :
  exists step,
    Heun_get_np_step (profile_of (1 / 4)) geometric = Ok step
    /\ step 1 0 [] 1 = Ok (PNum (15 / 8))
    /\ Heun_spec_step (1 / 4) (fun y _ _ => y) (fun y _ _ => y) 1 0 [] 1
       = 65 / 32
    /\ step 1 0 [] 1 <>
         Ok (PNum (Heun_spec_step (1 / 4) (fun y _ _ => y) (fun y _ _ => y)
                     1 0 [] 1)).
Proof.
  assert (Hspec :
    Heun_spec_step (1 / 4) (fun y _ _ => y) (fun y _ _ => y) 1 0 [] 1
    = 65 / 32).
  { unfold Heun_spec_step; simpl; rewrite sqrt_quarter; lra. }
  assert (Hcode :
    1 + 1 * (1 / 4) + 5 / 10 * (1 + (1 + 1 * 1 * sqrt (1 / 4))) * 1
                      * sqrt (1 / 4) = 15 / 8).
  { rewrite sqrt_quarter; lra. }
  eexists; split; [reflexivity |].
  rewrite Hspec; simpl; rewrite Hcode.
  repeat split.
  intros H; injection H; lra.
Qed.

End HeunReal.

(** ** The Milstein schemes, over the real numbers *)

Section MilsteinReal.
Local Open Scope R_scope.

(** The algebra behind the two correction terms: [s] stands for
    [sqrt(dt)], [gh] for the diffusion at the predictor. *)
Lemma ito_correction_algebra (y0 fv d s g0 gh xi : R) :
  0 < s -> s * s = d ->
  y0 + fv * d + g0 * xi * s + 5 / 10 * (gh - g0) * (xi * xi * s - s)
  = y0 + fv * d + g0 * (s * xi)
    + 1 / 2 * (gh - g0) * (s * xi * (s * xi) - d) / s.
Proof. intros Hs Hd; subst d; field; lra. Qed.

Lemma stra_correction_algebra (y0 fv d s g0 gh xi : R) :
  0 < s ->
  y0 + fv * d + g0 * xi * s + 5 / 10 * (gh - g0) * (xi * xi * s)
  = y0 + fv * d + g0 * (s * xi)
    + 1 / 2 * (gh - g0) * (s * xi * (s * xi)) / s.
Proof. intros Hs; field; lra. Qed.

(** C2. On a stochastic equation with a callable diffusion and [dt > 0],
    both Milstein step functions evaluate the diffusion at the noise-free
    predictor [y_hat = y0 + f*dt + g*sqrt(dt)]; with [dW = sqrt(dt)*xi],
    MilsteinIto returns the Euler-Maruyama update plus
    [1/2*(g(y_hat) - g(y0))*(dW^2 - dt)/sqrt(dt)] and MilsteinStra the
    Euler-Maruyama update plus [1/2*(g(y_hat) - g(y0))*dW^2/sqrt(dt)]. *)
Theorem Milstein_np_steps_correction
  (p : Profile R) (eq : DiffEquation R) (gf : R -> R -> list R -> R)
  (y0 t : R) (args : list R) (xi fv : R) (aux : list R) :
  0 < get_dt p ->
  is_stochastic eq = true ->
  g eq = GFun gf ->
  f eq y0 t args = returned (is_multi_return eq) fv aux ->
  let dt := get_dt p in
  let g0 := gf y0 t args in
  let y_hat := y0 + fv * dt + g0 * sqrt dt in
  let dW := sqrt dt * xi in
  let y_em := y0 + fv * dt + g0 * dW in
  exists s_euler s_ito s_stra,
    Euler_get_np_step p eq = Ok s_euler
    /\ MilsteinIto_get_np_step p eq = Ok s_ito
    /\ MilsteinStra_get_np_step p eq = Ok s_stra
    /\ s_euler y0 t args xi = Ok (returned (is_multi_return eq) y_em aux)
    /\ s_ito y0 t args xi =
         Ok (returned (is_multi_return eq)
               (y_em + 1 / 2 * (gf y_hat t args - g0)
                       * (dW * dW - dt) / sqrt dt) aux)
    /\ s_stra y0 t args xi =
         Ok (returned (is_multi_return eq)
               (y_em + 1 / 2 * (gf y_hat t args - g0)
                       * (dW * dW) / sqrt dt) aux).
Proof.
  intros Hdt Hs Hg Hf dt g0 y_hat dW y_em.
  unfold Euler_get_np_step, MilsteinIto_get_np_step, MilsteinStra_get_np_step.
  rewrite Hs, Hg.
  assert (Hpos : 0 < sqrt dt) by (apply sqrt_lt_R0; exact Hdt).
  assert (Hsq : sqrt dt * sqrt dt = dt)
    by (apply sqrt_sqrt, Rlt_le; exact Hdt).
  assert (Hem : y0 + fv * dt + sqrt dt * g0 * xi = y_em)
    by (unfold y_em, dW; ring).
  assert (Hito :
    y0 + fv * dt + g0 * xi * sqrt dt
    + 5 / 10 * (gf y_hat t args - g0) * (xi * xi * sqrt dt - sqrt dt)
    = y_em + 1 / 2 * (gf y_hat t args - g0) * (dW * dW - dt) / sqrt dt)
    by (apply ito_correction_algebra; assumption).
  assert (Hstra :
    y0 + fv * dt + g0 * xi * sqrt dt
    + 5 / 10 * (gf y_hat t args - g0) * (xi * xi * sqrt dt)
    = y_em + 1 / 2 * (gf y_hat t args - g0) * (dW * dW) / sqrt dt)
    by (apply stra_correction_algebra; assumption).
  fold dt.
  destruct (is_multi_return eq); do 3 eexists;
    repeat (split; [reflexivity |]);
    cbv beta zeta; rewrite Hf; simpl;
    fold dt; fold g0; fold y_hat;
    rewrite Hem, Hito, Hstra; repeat split.
Qed.

Lemma Milstein_np_steps_correction_witness :
  exists s_euler s_ito s_stra,
    Euler_get_np_step (profile_of 1) geometric = Ok s_euler
    /\ MilsteinIto_get_np_step (profile_of 1) geometric = Ok s_ito
    /\ MilsteinStra_get_np_step (profile_of 1) geometric = Ok s_stra
    /\ s_euler 1 0 [] 2 = Ok (PNum (1 + 1 * 1 + 1 * (sqrt 1 * 2)))
    /\ s_ito 1 0 [] 2 =
         Ok (PNum (1 + 1 * 1 + 1 * (sqrt 1 * 2)
                   + 1 / 2 * (1 + 1 * 1 + 1 * sqrt 1 - 1)
                     * (sqrt 1 * 2 * (sqrt 1 * 2) - 1) / sqrt 1))
    /\ s_stra 1 0 [] 2 =
         Ok (PNum (1 + 1 * 1 + 1 * (sqrt 1 * 2)
                   + 1 / 2 * (1 + 1 * 1 + 1 * sqrt 1 - 1)
                     * (sqrt 1 * 2 * (sqrt 1 * 2)) / sqrt 1)).
Proof.
  exact (Milstein_np_steps_correction (profile_of 1) geometric
           (fun y _ _ => y) 1 0 [] 2 1 [] Rlt_0_1 eq_refl eq_refl eq_refl).
Defined.

End MilsteinReal.

(** ** IEEE binary64 *)

Section Binary64.
Local Open Scope float_scope.

Lemma nonfinite_SF_is_finite (x : float) :
  nonfinite_SF (Prim2SF x) = true -> PrimFloat.is_finite x = false.
Proof.
  unfold Prim2SF, PrimFloat.is_finite.
  destruct (PrimFloat.is_nan x); [reflexivity |].
  destruct (PrimFloat.is_zero x); [discriminate |].
  destruct (PrimFloat.is_infinity x); [reflexivity |].
  destruct (FloatOps.Z.frexp x) as [r e].
  destruct (shr_fexp _ _ _ _) as [shr e'].
  destruct (shr_m shr); simpl; discriminate.
Qed.

Lemma eqb_zero_SF (x : float) :
  PrimFloat.eqb x 0 = true -> exists s, Prim2SF x = S754_zero s.
Proof.
  rewrite eqb_spec.
  change (Prim2SF 0) with (S754_zero false).
  destruct (Prim2SF x) as [s | s | | s m e]; simpl.
  - intros _; exists s; reflexivity.
  - destruct s; discriminate.
  - discriminate.
  - destruct s; discriminate.
Qed.

Lemma div_zero_nonfinite (x z : float) (s : bool) :
  Prim2SF z = S754_zero s -> nonfinite_SF (Prim2SF (x / z)) = true.
Proof.
  intros Hz; rewrite div_spec, Hz.
  destruct (Prim2SF x); reflexivity.
Qed.

Lemma mul_nonfinite (x y : float) :
  nonfinite_SF (Prim2SF x) = true -> nonfinite_SF (Prim2SF (x * y)) = true.
Proof.
  rewrite mul_spec.
  destruct (Prim2SF x); try discriminate; intros _;
    destruct (Prim2SF y); reflexivity.
Qed.

Lemma add_nonfinite (x y : float) :
  nonfinite_SF (Prim2SF y) = true -> nonfinite_SF (Prim2SF (x + y)) = true.
Proof.
  rewrite add_spec.
  destruct (Prim2SF y) as [| sy | |]; try discriminate; intros _;
    destruct (Prim2SF x) as [| sx | |]; try reflexivity.
  destruct sx, sy; reflexivity.
Qed.

(** C10. On a deterministic equation whose drift returns a linear
    coefficient equal to zero ([+0.0] or [-0.0]) at an input, the
    ExponentialEuler step function raises nothing there: it returns
    [y0 + (exp(linear*dt) - 1)/linear*df], division included, and that
    number is an infinity or a NaN whatever [np.exp] returns. *)
Theorem ExponentialEuler_zero_linear_nonfinite
  (exp64 : float -> float) (p : Profile float) (eq : DiffEquation float)
  (y0 t : float) (args : list float) (xi df lin : float)
  (aux : list float) :
  is_stochastic eq = false ->
  f eq y0 t args = PTuple (df :: lin :: aux) ->
  (is_multi_return eq = false -> aux = []) ->
  PrimFloat.eqb lin 0 = true ->
  exists step,
    @ExponentialEuler_get_np_step float (float_Arith exp64) p eq = Ok step
    /\ let y := (y0 + (exp64 (lin * get_dt p) - 1) / lin * df)%float in
       step y0 t args xi = Ok (returned (is_multi_return eq) y aux)
       /\ PrimFloat.is_finite y = false.
Proof.
  intros Hs Hf Haux Hz.
  unfold ExponentialEuler_get_np_step; rewrite Hs.
  assert (Hnf : PrimFloat.is_finite
                  (y0 + (exp64 (lin * get_dt p) - 1) / lin * df)%float
                = false).
  { destruct (eqb_zero_SF lin Hz) as [s Hlin].
    apply nonfinite_SF_is_finite, add_nonfinite, mul_nonfinite.
    exact (div_zero_nonfinite _ lin s Hlin). }
  destruct (is_multi_return eq) eqn:Hm; eexists; (split; [reflexivity |]);
    cbv beta zeta; rewrite Hf.
  - split; [reflexivity | exact Hnf].
  - rewrite (Haux eq_refl); split; [reflexivity | exact Hnf].
Qed.

End Binary64.

Lemma ExponentialEuler_zero_linear_nonfinite_witness :
  exists step,
    @ExponentialEuler_get_np_step float (float_Arith (fun _ => 1%float))
      (profile64 float_0_1 false true) constant_rate64 = Ok step
    /\ let y := (1 + (1 - 1) / 0 * 1)%float in
       step 1%float 0%float [] 0%float = Ok (PNum y)
       /\ PrimFloat.is_finite y = false.
Proof.
  exact (ExponentialEuler_zero_linear_nonfinite (fun _ => 1%float)
           (profile64 float_0_1 false true) constant_rate64
           1%float 0%float [] 0%float 1%float 0%float []
           eq_refl eq_refl (fun _ => eq_refl) eq_refl).
Defined.

(** C9. On a deterministic single-return equation the Euler step function
    returns exactly [y0 + dt*f(y0, t, args)], in any arithmetic; in binary64,
    on [dy/dt = -y] with [y0 = 1], [t = 0] and [dt = 0.1], it returns the
    float [0.9]. *)
Theorem Euler_ode_step_exact :
  (forall (V : Type) (AR : Arith V) (p : Profile V) (eq : DiffEquation V)
          (y0 t : V) (args : list V) (xi fv : V),
      is_stochastic eq = false ->
      is_multi_return eq = false ->
      f eq y0 t args = PNum fv ->
      exists step,
        Euler_get_np_step p eq = Ok step
        /\ step y0 t args xi = Ok (PNum (vadd y0 (vmul (get_dt p) fv))))
  /\ (forall (exp64 : float -> float) (numba merge : bool) (xi : float),
         exists step,
           @Euler_get_np_step float (float_Arith exp64)
             (profile64 float_0_1 numba merge) decay64 = Ok step
           /\ step 1%float 0%float [] xi = Ok (PNum float_0_9)).
Proof.
  split.
  - intros V AR p eq y0 t args xi fv Hs Hm Hf.
    destruct (Euler_ode_step p eq y0 t args xi fv [] Hs) as [step [H1 H2]].
    + rewrite Hm; exact Hf.
    + exists step; split; [exact H1 |].
      rewrite H2, Hm; reflexivity.
  - intros exp64 numba merge xi.
    eexists; split; [reflexivity |].
    vm_compute; reflexivity.
Qed.

Lemma Euler_ode_step_exact_witness :
  exists step,
    Euler_get_np_step (profile_of (1 / 10)) decay = Ok step
    /\ step 1%R 0%R [] 0%R = Ok (PNum (1 + 1 / 10 * - (1))%R).
Proof.
  exact (proj1 Euler_ode_step_exact R R_Arith (profile_of (1 / 10)) decay
           1%R 0%R [] 0%R (- (1))%R eq_refl eq_refl eq_refl).
Defined.

(** ** The generic facts at concrete equations *)

Section RealWitnesses.
Local Open Scope R_scope.

Lemma RK_schemes_on_stochastic_witness :
  (RK2_get_np_step (profile_of (1 / 10)) geometric (2 / 3)
     = Raise NotImplementedError
   /\ RK3_get_np_step (profile_of (1 / 10)) geometric
        = Raise NotImplementedError
   /\ RK4_get_np_step (profile_of (1 / 10)) geometric
        = Raise NotImplementedError
   /\ RK4Alternative_get_np_step (profile_of (1 / 10)) geometric
        = Raise IntegratorError)
  /\ RK2_init nb_fixed (profile_of (1 / 10)) geometric (2 / 3)
     = Raise TypeError
  /\ RK3_init nb_fixed (profile_of (1 / 10)) geometric
     = Raise NotImplementedError
  /\ RK4_init nb_fixed (profile_of (1 / 10)) geometric
     = Raise NotImplementedError
  /\ RK4Alternative_init nb_fixed (profile_of (1 / 10)) geometric
     = Raise IntegratorError.
Proof.
  destruct (RK_schemes_on_stochastic nb_fixed (profile_of (1 / 10))
              geometric (2 / 3) eq_refl) as [Hnp [_ Hinit]].
  exact (conj Hnp (Hinit eq_refl)).
Defined.



Lemma Heun_constant_noise_is_Euler_witness :
  exists sh se,
    Heun_get_np_step (profile_of (1 / 10)) additive = Ok sh
    /\ Euler_get_np_step (profile_of (1 / 10)) additive = Ok se
    /\ (forall y0 t args xi, sh y0 t args xi = se y0 t args xi)
    /\ (forall y0 t args xi fv (aux : list R),
           PNum (- y0) = PNum fv ->
           se y0 t args xi =
             Ok (PNum (y0 + fv * (1 / 10) + sqrt (1 / 10) * (1 / 2) * xi))).
Proof.
  exact (Heun_constant_noise_is_Euler (profile_of (1 / 10)) additive (1 / 2)
           eq_refl eq_refl).
Defined.

End RealWitnesses.

(** * Further properties of the step closures *)

Ltac real_arith :=
  cbn [vadd vsub vmul vdiv np_sqrt np_exp of_int lit_0_5 R_Arith].

(* Two results of the same shape are equal when their new states are. *)
Ltac same_shape :=
  lazymatch goal with
  | |- Ok (PNum _) = Ok (PNum _) =>
      apply (f_equal (fun x => Ok (PNum x)))
  | |- Ok (PTuple (_ :: ?l)) = Ok (PTuple (_ :: ?l)) =>
      apply (f_equal (fun x => Ok (PTuple (x :: l))))
  end.

(** ** Runge-Kutta closures over the real numbers *)

Section RungeKuttaReal.
Local Open Scope R_scope.

(** Over the real numbers a Python division by a non-zero number is the
    division. *)
Lemma R_py_truediv (a b : R) : b <> 0 -> py_truediv a b = Ok (a / b).
Proof.
  intros Hb; unfold py_truediv; simpl.
  destruct (Req_dec_T b 0) as [E | _]; [contradiction | reflexivity].
Qed.

Lemma R_py_truediv_zero (a b : R) :
  b = 0 -> py_truediv a b = Raise ZeroDivisionError.
Proof.
  intros Hb; unfold py_truediv; simpl.
  destruct (Req_dec_T b 0) as [_ | E]; [reflexivity | contradiction].
Qed.

(** X1. On the linear test equation [dy/dt = lam*y] the closure built by
    [RK2.get_np_step] with any [beta <> 0] multiplies the state by
    [1 + z + z^2/2], [z = lam*dt], whatever [beta] is; auxiliary outputs pass
    through. *)
Theorem RK2_linear_test_equation
  (p : Profile R) (eq : DiffEquation R) (beta lam y0 t : R) (args : list R)
  (xi : R) (aux : R -> R -> list R) :
  beta <> 0 ->
  is_stochastic eq = false ->
  (forall y s,
      f eq y s args = returned (is_multi_return eq) (lam * y) (aux y s)) ->
  exists step,
    RK2_get_np_step p eq beta = Ok step
    /\ step y0 t args xi =
         Ok (returned (is_multi_return eq)
               (y0 * taylor_exp 2 (lam * get_dt p)) (aux y0 t)).
Proof.
  intros Hb Hs Hf; unfold RK2_get_np_step; rewrite Hs.
  assert (H2 : 2 * beta <> 0) by (intros E; apply Hb; lra).
  destruct (is_multi_return eq); eexists; (split; [reflexivity |]);
    cbv beta zeta;
    repeat (first [rewrite Hf | rewrite (R_py_truediv _ _ H2)]; simpl);
    real_arith; same_shape; field; exact Hb.
Qed.

Lemma RK2_linear_test_equation_witness :
  exists step,
    RK2_get_np_step (profile_of (1 / 10)) (linear_test (- (1))) (2 / 3)
      = Ok step
    /\ step 1 0 [] 0 =
         Ok (PNum (1 * taylor_exp 2 (- (1) * (1 / 10)))).
Proof.
  refine (RK2_linear_test_equation (profile_of (1 / 10)) (linear_test (- (1)))
            (2 / 3) (- (1)) 1 0 [] 0 (fun _ _ => []) _ eq_refl
            (fun _ _ => eq_refl)).
  lra.
Defined.

(** X2. On [dy/dt = lam*y] the RK3 closure multiplies the state by
    [1 + z + z^2/2 + z^3/6], and the RK4 and RK4Alternative closures both by
    [1 + z + z^2/2 + z^3/6 + z^4/24], [z = lam*dt]. *)
Theorem RK3_RK4_linear_test_equation
  (p : Profile R) (eq : DiffEquation R) (lam y0 t : R) (args : list R)
  (xi : R) (aux : R -> R -> list R) :
  is_stochastic eq = false ->
  (forall y s,
      f eq y s args = returned (is_multi_return eq) (lam * y) (aux y s)) ->
  exists s3 s4 s4a,
    RK3_get_np_step p eq = Ok s3
    /\ RK4_get_np_step p eq = Ok s4
    /\ RK4Alternative_get_np_step p eq = Ok s4a
    /\ s3 y0 t args xi =
         Ok (returned (is_multi_return eq)
               (y0 * taylor_exp 3 (lam * get_dt p)) (aux y0 t))
    /\ s4 y0 t args xi =
         Ok (returned (is_multi_return eq)
               (y0 * taylor_exp 4 (lam * get_dt p)) (aux y0 t))
    /\ s4a y0 t args xi =
         Ok (returned (is_multi_return eq)
               (y0 * taylor_exp 4 (lam * get_dt p)) (aux y0 t)).
Proof.
  intros Hs Hf.
  unfold RK3_get_np_step, RK4_get_np_step, RK4Alternative_get_np_step.
  rewrite Hs.
  destruct (is_multi_return eq); do 3 eexists;
    repeat (split; [reflexivity |]);
    cbv beta zeta; repeat (rewrite Hf; simpl); real_arith;
    repeat split; same_shape; field.
Qed.

Lemma RK3_RK4_linear_test_equation_witness :
  exists s3 s4 s4a,
    RK3_get_np_step (profile_of (1 / 10)) (linear_test (- (1))) = Ok s3
    /\ RK4_get_np_step (profile_of (1 / 10)) (linear_test (- (1))) = Ok s4
    /\ RK4Alternative_get_np_step (profile_of (1 / 10)) (linear_test (- (1)))
       = Ok s4a
    /\ s3 1 0 [] 0 = Ok (PNum (1 * taylor_exp 3 (- (1) * (1 / 10))))
    /\ s4 1 0 [] 0 = Ok (PNum (1 * taylor_exp 4 (- (1) * (1 / 10))))
    /\ s4a 1 0 [] 0 = Ok (PNum (1 * taylor_exp 4 (- (1) * (1 / 10)))).
Proof.
  exact (RK3_RK4_linear_test_equation (profile_of (1 / 10))
           (linear_test (- (1))) (- (1)) 1 0 [] 0 (fun _ _ => [])
           eq_refl (fun _ _ => eq_refl)).
Defined.

(** X3. On a quadrature problem (a drift [h(t)] that ignores the state) the
    RK3 and the RK4 closures both return Simpson's rule
    [y0 + dt/6*(h(t) + 4*h(t + dt/2) + h(t + dt))], hence the same value, and
    the RK4Alternative closure returns the 3/8 rule. *)
Theorem RK_quadrature_rules
  (p : Profile R) (eq : DiffEquation R) (h : R -> R) (y0 t : R)
  (args : list R) (xi : R) (aux : R -> R -> list R) :
  is_stochastic eq = false ->
  (forall y s, f eq y s args = returned (is_multi_return eq) (h s) (aux y s)) ->
  let dt := get_dt p in
  let simpson := y0 + dt / 6 * (h t + 4 * h (t + dt / 2) + h (t + dt)) in
  exists s3 s4 s4a,
    RK3_get_np_step p eq = Ok s3
    /\ RK4_get_np_step p eq = Ok s4
    /\ RK4Alternative_get_np_step p eq = Ok s4a
    /\ s3 y0 t args xi = Ok (returned (is_multi_return eq) simpson (aux y0 t))
    /\ s4 y0 t args xi = Ok (returned (is_multi_return eq) simpson (aux y0 t))
    /\ s4a y0 t args xi =
         Ok (returned (is_multi_return eq)
               (y0 + dt / 8 * (h t + 3 * h (t + dt / 3)
                               + 3 * h (t + 2 * dt / 3) + h (t + dt)))
               (aux y0 t)).
Proof.
  intros Hs Hf dt simpson; unfold simpson.
  unfold RK3_get_np_step, RK4_get_np_step, RK4Alternative_get_np_step.
  rewrite Hs; fold dt.
  destruct (is_multi_return eq); do 3 eexists;
    repeat (split; [reflexivity |]);
    cbv beta zeta; repeat (rewrite Hf; simpl); real_arith;
    repeat split; same_shape; ring.
Qed.

Lemma RK_quadrature_rules_witness :
  exists s3 s4 s4a,
    RK3_get_np_step (profile_of 1) quadrature_square = Ok s3
    /\ RK4_get_np_step (profile_of 1) quadrature_square = Ok s4
    /\ RK4Alternative_get_np_step (profile_of 1) quadrature_square = Ok s4a
    /\ s3 0 0 [] 0 =
         Ok (PNum (0 + 1 / 6 * (0 * 0 + 4 * ((0 + 1 / 2) * (0 + 1 / 2))
                                + (0 + 1) * (0 + 1))))
    /\ s4 0 0 [] 0 =
         Ok (PNum (0 + 1 / 6 * (0 * 0 + 4 * ((0 + 1 / 2) * (0 + 1 / 2))
                                + (0 + 1) * (0 + 1))))
    /\ s4a 0 0 [] 0 =
         Ok (PNum (0 + 1 / 8 * (0 * 0 + 3 * ((0 + 1 / 3) * (0 + 1 / 3))
                                + 3 * ((0 + 2 * 1 / 3) * (0 + 2 * 1 / 3))
                                + (0 + 1) * (0 + 1)))).
Proof.
  exact (RK_quadrature_rules (profile_of 1) quadrature_square
           (fun s => s * s) 0 0 [] 0 (fun _ _ => [])
           eq_refl (fun _ _ => eq_refl)).
Defined.

(** X4. The choices of [beta] named in the docstring of RK2, for any drift
    [fd]: [beta = 0.5] gives the explicit midpoint rule
    [y0 + dt*fd(y0 + dt/2*k1, t + dt/2)], [beta = 1] the trapezoid rule
    [y0 + dt/2*(k1 + fd(y0 + dt*k1, t + dt))] and the default [beta = 2/3]
    Ralston's rule [y0 + dt*(k1/4 + 3/4*fd(y0 + 2/3*dt*k1, t + 2/3*dt))], with
    [k1 = fd(y0, t)]. *)
Theorem RK2_named_choices
  (p : Profile R) (eq : DiffEquation R) (fd : R -> R -> R) (y0 t : R)
  (args : list R) (xi : R) (aux : R -> R -> list R) :
  is_stochastic eq = false ->
  (forall y s,
      f eq y s args = returned (is_multi_return eq) (fd y s) (aux y s)) ->
  let dt := get_dt p in
  let k1 := fd y0 t in
  exists s_mid s_trap s_ral,
    RK2_get_np_step p eq lit_0_5 = Ok s_mid
    /\ RK2_get_np_step p eq (of_int 1) = Ok s_trap
    /\ RK2_get_np_step p eq (of_int 2 / of_int 3)%num = Ok s_ral
    /\ s_mid y0 t args xi =
         Ok (returned (is_multi_return eq)
               (y0 + dt * fd (y0 + dt / 2 * k1) (t + dt / 2)) (aux y0 t))
    /\ s_trap y0 t args xi =
         Ok (returned (is_multi_return eq)
               (y0 + dt / 2 * (k1 + fd (y0 + dt * k1) (t + dt))) (aux y0 t))
    /\ s_ral y0 t args xi =
         Ok (returned (is_multi_return eq)
               (y0 + dt * (k1 / 4
                           + 3 / 4 * fd (y0 + 2 / 3 * dt * k1)
                                        (t + 2 / 3 * dt)))
               (aux y0 t)).
Proof.
  intros Hs Hf dt k1.
  unfold RK2_get_np_step; rewrite Hs; fold dt.
  assert (E1 : forall k, y0 + 5 / 10 * dt * k = y0 + dt / 2 * k)
    by (intros; field).
  assert (E2 : t + 5 / 10 * dt = t + dt / 2) by field.
  assert (E3 : forall k, y0 + 1 * dt * k = y0 + dt * k) by (intros; ring).
  assert (E4 : t + 1 * dt = t + dt) by ring.
  assert (Z1 : 2 * (5 / 10) <> 0) by lra.
  assert (Z2 : 2 * 1 <> 0) by lra.
  assert (Z3 : 2 * (2 / 3) <> 0) by lra.
  destruct (is_multi_return eq); do 3 eexists;
    repeat (split; [reflexivity |]);
    cbv beta zeta;
    repeat (first [rewrite Hf
                  | rewrite (R_py_truediv _ _ Z1)
                  | rewrite (R_py_truediv _ _ Z2)
                  | rewrite (R_py_truediv _ _ Z3)]; simpl);
    real_arith;
    fold k1; rewrite E1, E2, E3, E4;
    repeat split; same_shape; field.
Qed.

Lemma RK2_named_choices_witness :
  exists s_mid s_trap s_ral,
    RK2_get_np_step (profile_of 1) decay (5 / 10) = Ok s_mid
    /\ RK2_get_np_step (profile_of 1) decay 1 = Ok s_trap
    /\ RK2_get_np_step (profile_of 1) decay (2 / 3) = Ok s_ral
    /\ s_mid 1 0 [] 0 = Ok (PNum (1 + 1 * - (1 + 1 / 2 * - (1))))
    /\ s_trap 1 0 [] 0 = Ok (PNum (1 + 1 / 2 * (- (1) + - (1 + 1 * - (1)))))
    /\ s_ral 1 0 [] 0 =
         Ok (PNum (1 + 1 * (- (1) / 4 + 3 / 4 * - (1 + 2 / 3 * 1 * - (1))))).
Proof.
  exact (RK2_named_choices (profile_of 1) decay (fun y _ => - y) 1 0 [] 0
           (fun _ _ => []) eq_refl (fun _ _ => eq_refl)).
Defined.

End RungeKuttaReal.

(** ** ExponentialEuler over the real numbers *)

Section ExponentialReal.
Local Open Scope R_scope.

(** X5. On an affine equation [dy/dt = a*y + b] returned with its linear
    coefficient [a <> 0], one ExponentialEuler step is the exact solution
    after [dt]: [y0*exp(a*dt) + b/a*(exp(a*dt) - 1)]. *)
Theorem ExponentialEuler_exact_on_affine
  (p : Profile R) (eq : DiffEquation R) (a b y0 t : R) (args : list R)
  (xi : R) (aux : list R) :
  a <> 0 ->
  is_stochastic eq = false ->
  f eq y0 t args = PTuple (a * y0 + b :: a :: aux) ->
  (is_multi_return eq = false -> aux = []) ->
  exists step,
    ExponentialEuler_get_np_step p eq = Ok step
    /\ step y0 t args xi =
         Ok (returned (is_multi_return eq)
               (y0 * exp (a * get_dt p) + b / a * (exp (a * get_dt p) - 1))
               aux).
Proof.
  intros Ha Hs Hf Haux; unfold ExponentialEuler_get_np_step; rewrite Hs.
  destruct (is_multi_return eq); eexists; (split; [reflexivity |]);
    cbv beta zeta; rewrite Hf; [| rewrite (Haux eq_refl)]; simpl; real_arith;
    same_shape; field; exact Ha.
Qed.

Lemma ExponentialEuler_exact_on_affine_witness :
  exists step,
    ExponentialEuler_get_np_step (fused_profile_of (1 / 10))
      (affine_with_linear (- (2)) 1) = Ok step
    /\ step 1 0 [] 0 =
         Ok (PNum (1 * exp (- (2) * (1 / 10))
                   + 1 / - (2) * (exp (- (2) * (1 / 10)) - 1))).
Proof.
  refine (ExponentialEuler_exact_on_affine (fused_profile_of (1 / 10))
            (affine_with_linear (- (2)) 1) (- (2)) 1 1 0 [] 0 []
            _ eq_refl eq_refl (fun _ => eq_refl)).
  lra.
Defined.

(** X6. The stochastic ExponentialEuler closures follow the first scheme of
    the class docstring: for a drift [A*y0 + F] returned with [A <> 0] and a
    diffusion coefficient [gv] (callable or constant), the step returns
    [exp(dt*A)*(y0 + gv*dW) + (exp(dt*A) - 1)/A*F] with [dW = sqrt(dt)*xi]. *)
Theorem ExponentialEuler_sde_scheme
  (p : Profile R) (eq : DiffEquation R) (A F gv y0 t : R) (args : list R)
  (xi : R) :
  A <> 0 ->
  is_stochastic eq = true ->
  is_multi_return eq = false ->
  g_at (g eq) y0 t args = Some gv ->
  f eq y0 t args = PTuple [A * y0 + F; A] ->
  exists step,
    ExponentialEuler_get_np_step p eq = Ok step
    /\ step y0 t args xi =
         Ok (PNum (exp (get_dt p * A) * (y0 + gv * (sqrt (get_dt p) * xi))
                   + (exp (get_dt p * A) - 1) / A * F)).
Proof.
  intros HA Hs Hm Hg Hf; unfold ExponentialEuler_get_np_step.
  rewrite Hs, Hm.
  destruct (g eq) as [gf | c |]; simpl in Hg; [| | discriminate Hg];
    injection Hg as <-; eexists; (split; [reflexivity |]);
    cbv beta zeta; rewrite Hf; simpl; real_arith;
    replace (A * get_dt p) with (get_dt p * A) by ring;
    same_shape; field; exact HA.
Qed.

Lemma ExponentialEuler_sde_scheme_witness :
  exists step,
    ExponentialEuler_get_np_step (fused_profile_of (1 / 10))
      (affine_sde_with_linear (- (2)) 1 3) = Ok step
    /\ step 1 0 [] 2 =
         Ok (PNum (exp (1 / 10 * - (2)) * (1 + 3 * (sqrt (1 / 10) * 2))
                   + (exp (1 / 10 * - (2)) - 1) / - (2) * 1)).
Proof.
  refine (ExponentialEuler_sde_scheme (fused_profile_of (1 / 10))
            (affine_sde_with_linear (- (2)) 1 3) (- (2)) 1 3 1 0 [] 2
            _ eq_refl eq_refl eq_refl eq_refl).
  lra.
Defined.

End ExponentialReal.

(** ** Additive noise over the real numbers *)

Section AdditiveNoiseReal.
Local Open Scope R_scope.

(** X7. When the callable diffusion ignores the state, the step functions of
    Heun, MilsteinIto and MilsteinStra all return what the Euler step
    function returns, the Euler-Maruyama update
    [y0 + f*dt + g*sqrt(dt)*xi]. *)
Theorem additive_noise_schemes_are_Euler
  (p : Profile R) (eq : DiffEquation R) (gf : R -> R -> list R -> R)
  (y0 t : R) (args : list R) (xi fv : R) (aux : list R) :
  is_stochastic eq = true ->
  g eq = GFun gf ->
  (forall y y', gf y t args = gf y' t args) ->
  f eq y0 t args = returned (is_multi_return eq) fv aux ->
  exists s_euler s_heun s_ito s_stra,
    Euler_get_np_step p eq = Ok s_euler
    /\ Heun_get_np_step p eq = Ok s_heun
    /\ MilsteinIto_get_np_step p eq = Ok s_ito
    /\ MilsteinStra_get_np_step p eq = Ok s_stra
    /\ s_euler y0 t args xi =
         Ok (returned (is_multi_return eq)
               (y0 + fv * get_dt p + gf y0 t args * (sqrt (get_dt p) * xi))
               aux)
    /\ s_heun y0 t args xi = s_euler y0 t args xi
    /\ s_ito y0 t args xi = s_euler y0 t args xi
    /\ s_stra y0 t args xi = s_euler y0 t args xi.
Proof.
  intros Hs Hg Hind Hf.
  unfold Euler_get_np_step, Heun_get_np_step, MilsteinIto_get_np_step,
    MilsteinStra_get_np_step.
  rewrite Hs, Hg.
  destruct (is_multi_return eq); do 4 eexists;
    repeat (split; [reflexivity |]);
    cbv beta zeta; rewrite Hf; simpl; real_arith;
    repeat
      match goal with
      | |- context [gf ?y t args] =>
          lazymatch y with
          | y0 => fail
          | _ => rewrite (Hind y y0)
          end
      end;
    repeat split; same_shape; field.
Qed.

Lemma additive_noise_schemes_are_Euler_witness :
  exists s_euler s_heun s_ito s_stra,
    Euler_get_np_step (profile_of (1 / 10)) additive_callable = Ok s_euler
    /\ Heun_get_np_step (profile_of (1 / 10)) additive_callable = Ok s_heun
    /\ MilsteinIto_get_np_step (profile_of (1 / 10)) additive_callable
       = Ok s_ito
    /\ MilsteinStra_get_np_step (profile_of (1 / 10)) additive_callable
       = Ok s_stra
    /\ s_euler 1 0 [] 2 =
         Ok (PNum (1 + - (1) * (1 / 10) + (1 + 0) * (sqrt (1 / 10) * 2)))
    /\ s_heun 1 0 [] 2 = s_euler 1 0 [] 2
    /\ s_ito 1 0 [] 2 = s_euler 1 0 [] 2
    /\ s_stra 1 0 [] 2 = s_euler 1 0 [] 2.
Proof.
  exact (additive_noise_schemes_are_Euler (profile_of (1 / 10))
           additive_callable (fun _ t _ => 1 + t) 1 0 [] 2 (- (1)) []
           eq_refl eq_refl (fun _ _ => eq_refl) eq_refl).
Defined.

End AdditiveNoiseReal.

(** ** Closures and constructors in every arithmetic *)

Section FurtherGeneric.
Context {V : Type} {AR : Arith V}.
Local Open Scope num_scope.

(** X8. Auxiliary outputs pass through every closure but those of
    ExponentialEuler: on a multi-return equation whose drift always returns a
    non-empty tuple, the closures of Euler, Heun, MilsteinIto, MilsteinStra,
    RK3, RK4 and RK4Alternative, and the one [RK2.get_np_step] builds for a
    [beta] with [2*beta] not zero, return a tuple whose tail is the auxiliary
    outputs of the drift at [(y0, t, args)], the first evaluation, whatever
    the later stages return. *)
Theorem multi_return_pass_through
  (p : Profile V) (eq : DiffEquation V) (beta : V)
  (y0 t : V) (args : list V) (xi : V) (step : step_fun V) :
  is_multi_return eq = true ->
  (forall y s, exists v aux, f eq y s args = PTuple (v :: aux)) ->
  In (Ok step)
    [Euler_get_np_step p eq; Heun_get_np_step p eq;
     MilsteinIto_get_np_step p eq; MilsteinStra_get_np_step p eq;
     RK3_get_np_step p eq; RK4_get_np_step p eq;
     RK4Alternative_get_np_step p eq]
  \/ (is_zero (of_int 2 * beta) = false
      /\ RK2_get_np_step p eq beta = Ok step) ->
  exists y1,
    step y0 t args xi = Ok (PTuple (y1 :: aux_of (f eq y0 t args))).
Proof.
  intros Hm Hf Hin.
  assert (Hstage : forall y s, exists v,
             getitem (f eq y s args) 0 = Ok v).
  { intros y s; destruct (Hf y s) as [v [aux Hv]]; rewrite Hv.
    exists v; reflexivity. }
  destruct (Hf y0 t) as [v0 [aux0 Hv0]].
  destruct Hin as [Hin | [Hz Hin]].
  - unfold Heun_get_np_step, MilsteinIto_get_np_step,
      MilsteinStra_get_np_step, RK2_get_np_step_kw, call_with_keyword,
      RK3_get_np_step, RK4_get_np_step, RK4Alternative_get_np_step in Hin.
    unfold Euler_get_np_step in Hin.
    rewrite Hm in Hin; simpl in Hin.
    destruct (is_stochastic eq); [destruct (g eq) as [gf | c |] |];
      simpl in Hin;
      repeat
        match goal with
        | H : _ \/ _ |- _ => destruct H as [H | H]
        | H : False |- _ => destruct H
        | H : Raise _ = Ok _ |- _ => discriminate H
        | H : Ok _ = Ok step |- _ => injection H as <-
        end;
      cbv beta zeta; rewrite Hv0; simpl;
      repeat
        match goal with
        | |- context [getitem (f eq ?y ?s args) 0] =>
            let v := fresh "v" in
            let Hv := fresh "Hv" in
            destruct (Hstage y s) as [v Hv]; rewrite Hv; simpl
        end;
      eexists; reflexivity.
  - unfold RK2_get_np_step in Hin; rewrite Hm in Hin.
    destruct (is_stochastic eq); [discriminate Hin |].
    injection Hin as <-.
    cbv beta zeta; rewrite Hv0; simpl.
    destruct (Hstage (y0 + beta * get_dt p * v0) (t + beta * get_dt p))
      as [v Hv].
    rewrite Hv; simpl.
    unfold py_truediv; rewrite Hz; simpl.
    eexists; reflexivity.
Qed.


(** X9. On a deterministic equation [Heun.get_np_step] builds nothing: its
    keyword call of [RK2.get_np_step] raises [TypeError], so the constructor
    of Heun raises on every deterministic equation. *)
Theorem Heun_deterministic_raises
  (nb_code : Scheme -> Profile V -> DiffEquation V -> list V -> res string)
  (p : Profile V) (eq : DiffEquation V) :
  is_stochastic eq = false ->
  Heun_get_np_step p eq = Raise TypeError
  /\ raises (Heun_init nb_code p eq)
  /\ (is_numba_bk p = false -> Heun_init nb_code p eq = Raise TypeError).
Proof.
  intros Hs.
  assert (H : Heun_get_np_step p eq = Raise TypeError)
    by (unfold Heun_get_np_step; rewrite Hs; reflexivity).
  unfold Heun_init; rewrite H.
  split; [reflexivity | split].
  - apply init_with_raises.
  - apply init_with_no_backend.
Qed.

(** X10. The only way the closure builders of Euler, MilsteinIto,
    MilsteinStra and ExponentialEuler fail is the assertion on [g]: they
    raise, and then [AssertionError], exactly on a stochastic equation whose
    [g] is neither callable nor numeric.  Heun fails on those equations and,
    with [TypeError], on the deterministic ones. *)
Theorem closure_builders_failures
  (p : Profile V) (eq : DiffEquation V) (e : exn) :
  let bad := is_stochastic eq = true /\ g eq = GOther in
  (Euler_get_np_step p eq = Raise e <-> bad /\ e = AssertionError)
  /\ (MilsteinIto_get_np_step p eq = Raise e <-> bad /\ e = AssertionError)
  /\ (MilsteinStra_get_np_step p eq = Raise e <-> bad /\ e = AssertionError)
  /\ (ExponentialEuler_get_np_step p eq = Raise e
      <-> bad /\ e = AssertionError)
  /\ (Heun_get_np_step p eq = Raise e
      <-> (bad /\ e = AssertionError)
          \/ (is_stochastic eq = false /\ e = TypeError)).
Proof.
  cbv zeta.
  unfold MilsteinIto_get_np_step, MilsteinStra_get_np_step,
    ExponentialEuler_get_np_step, Heun_get_np_step, RK2_get_np_step_kw,
    call_with_keyword.
  unfold Euler_get_np_step.
  destruct (is_stochastic eq); [destruct (g eq) as [gf | c |] |];
    destruct (is_multi_return eq); simpl;
    repeat split; intros;
    repeat
      match goal with
      | H : _ /\ _ |- _ => destruct H
      | H : _ \/ _ |- _ => destruct H
      | H : Ok _ = Raise _ |- _ => discriminate H
      | H : Raise _ = Raise _ |- _ => injection H as <-
      | H : GFun _ = GOther |- _ => discriminate H
      | H : GConst _ = GOther |- _ => discriminate H
      | H : false = true |- _ => discriminate H
      | H : true = false |- _ => discriminate H
      end;
    subst; auto.
Qed.

(** X11. Whatever a constructor returns holds the equation it was given and
    the closure of its [get_np_step], and holds generated code exactly when
    the numba backend is on (for ExponentialEuler the fused mode is then on
    as well). *)
Theorem constructed_integrators_are_well_built
  (nb_code : Scheme -> Profile V -> DiffEquation V -> list V -> res string)
  (p : Profile V) (eq : DiffEquation V) (it : @Integrator V) :
  (Euler_init nb_code p eq = Ok it ->
   well_built p eq (get_nb_step nb_code Euler p eq [])
     (Euler_get_np_step p eq) it)
  /\ (Heun_init nb_code p eq = Ok it ->
      well_built p eq (get_nb_step nb_code Heun p eq [])
        (Heun_get_np_step p eq) it)
  /\ (RK3_init nb_code p eq = Ok it ->
      well_built p eq (get_nb_step nb_code RK3 p eq [])
        (RK3_get_np_step p eq) it)
  /\ (RK4_init nb_code p eq = Ok it ->
      well_built p eq (get_nb_step nb_code RK4 p eq [])
        (RK4_get_np_step p eq) it)
  /\ (RK4Alternative_init nb_code p eq = Ok it ->
      well_built p eq (get_nb_step nb_code RK4Alternative p eq [])
        (RK4Alternative_get_np_step p eq) it)
  /\ (MilsteinIto_init nb_code p eq = Ok it ->
      well_built p eq (get_nb_step nb_code MilsteinIto p eq [])
        (MilsteinIto_get_np_step p eq) it)
  /\ (MilsteinStra_init nb_code p eq = Ok it ->
      well_built p eq (get_nb_step nb_code MilsteinStra p eq [])
        (MilsteinStra_get_np_step p eq) it)
  /\ (ExponentialEuler_init nb_code p eq = Ok it ->
      merge_integral p = true
      /\ well_built p eq (get_nb_step nb_code ExponentialEuler p eq [])
           (ExponentialEuler_get_np_step p eq) it).
Proof.
  assert (Hw : forall code func,
             init_with p eq code func = Ok it -> well_built p eq code func it).
  { intros code func; unfold init_with, set_update_code, well_built.
    destruct (is_numba_bk p); [destruct code as [c | e0] |];
      destruct func as [s | e1]; simpl; intros H;
      try discriminate H; injection H as <-; simpl;
      repeat split; eauto. }
  repeat (split; [apply Hw |]).
  unfold ExponentialEuler_init, set_update_code, well_built.
  generalize (get_nb_step nb_code ExponentialEuler p eq []); intros code.
  destruct (merge_integral p);
    (destruct (is_numba_bk p); [destruct code as [c | e0] |]);
    destruct (ExponentialEuler_get_np_step p eq) as [s | e1]; simpl; intros H;
    try discriminate H; injection H as <-; simpl;
    repeat split; eauto.
Qed.

(** X12. Code generation runs first: under the numba backend an exception
    of [get_nb_step] is what the constructor raises, whatever the closure
    builder would do and, for ExponentialEuler, whether or not the fused mode
    is on. *)
Theorem code_generation_error_comes_first
  (nb_code : Scheme -> Profile V -> DiffEquation V -> list V -> res string)
  (p : Profile V) (eq : DiffEquation V) (beta : V) (e : exn) :
  is_numba_bk p = true ->
  (get_nb_step nb_code Euler p eq [] = Raise e ->
   Euler_init nb_code p eq = Raise e)
  /\ (get_nb_step nb_code RK2 p eq [beta] = Raise e ->
      RK2_init nb_code p eq beta = Raise e)
  /\ (get_nb_step nb_code Heun p eq [] = Raise e ->
      Heun_init nb_code p eq = Raise e)
  /\ (get_nb_step nb_code MidPoint p eq [] = Raise e ->
      MidPoint_init nb_code p eq = Raise e)
  /\ (get_nb_step nb_code RK3 p eq [] = Raise e ->
      RK3_init nb_code p eq = Raise e)
  /\ (get_nb_step nb_code RK4 p eq [] = Raise e ->
      RK4_init nb_code p eq = Raise e)
  /\ (get_nb_step nb_code RK4Alternative p eq [] = Raise e ->
      RK4Alternative_init nb_code p eq = Raise e)
  /\ (get_nb_step nb_code ExponentialEuler p eq [] = Raise e ->
      ExponentialEuler_init nb_code p eq = Raise e)
  /\ (get_nb_step nb_code MilsteinIto p eq [] = Raise e ->
      MilsteinIto_init nb_code p eq = Raise e)
  /\ (get_nb_step nb_code MilsteinStra p eq [] = Raise e ->
      MilsteinStra_init nb_code p eq = Raise e).
Proof.
  intros Hbk.
  unfold Euler_init, RK2_init, Heun_init, MidPoint_init, RK3_init, RK4_init,
    RK4Alternative_init, ExponentialEuler_init, MilsteinIto_init,
    MilsteinStra_init, init_with, set_update_code.
  rewrite Hbk.
  repeat split; intros H; rewrite H; reflexivity.
Qed.

(** X13. ExponentialEuler needs the linear coefficient among the drift's
    outputs: on a deterministic multi-return equation whose drift returns a
    one-item tuple the step raises [IndexError], and on a single-return
    equation whose drift returns a tuple of any length but two the unpacking
    raises [ValueError]. *)
Theorem ExponentialEuler_missing_linear_part
  (p : Profile V) (eq : DiffEquation V) (y0 t : V) (args : list V) (xi : V)
  (xs : list V) :
  is_stochastic eq = false ->
  f eq y0 t args = PTuple xs ->
  exists step,
    ExponentialEuler_get_np_step p eq = Ok step
    /\ (is_multi_return eq = true -> List.length xs = 1 ->
        step y0 t args xi = Raise IndexError)
    /\ (is_multi_return eq = false -> List.length xs <> 2 ->
        exists msg, step y0 t args xi = Raise (ValueError msg)).
Proof.
  intros Hs Hf; unfold ExponentialEuler_get_np_step; rewrite Hs.
  destruct (is_multi_return eq); eexists; (split; [reflexivity |]);
    cbv beta zeta; rewrite Hf; (split; [intros Hm Hl | intros Hm Hl]);
    try discriminate Hm.
  - destruct xs as [| x [| x' xs']]; try discriminate Hl; reflexivity.
  - destruct xs as [| x [| x' [| x'' xs']]]; simpl;
      try (eexists; reflexivity).
    exfalso; apply Hl; reflexivity.
Qed.

End FurtherGeneric.

(** ** The registry's table *)

(** X14. The whole table of [get_integrator]: a name resolves to a class
    exactly when its lower-cased form ([str.lower], with Unicode's table for
    names that are not ASCII) is one of the names registered for that class,
    so ["milstein"] and ["milstein_ito"] are the only two names that share a
    class. *)
Theorem get_integrator_table (unicode_lower : string -> string)
  (name : string) (c : Scheme) :
  get_integrator unicode_lower name = Ok c <->
  In (str_lower unicode_lower name, c)
    [("euler", Euler); ("midpoint", MidPoint); ("heun", Heun); ("rk2", RK2);
     ("rk3", RK3); ("rk4", RK4); ("rk4_alternative", RK4Alternative);
     ("exponential", ExponentialEuler); ("milstein", MilsteinIto);
     ("milstein_ito", MilsteinIto); ("milstein_stra", MilsteinStra)].
Proof. exact (registry_by_table unicode_lower name c). Qed.

(** ** The further properties at concrete equations *)

Section FurtherWitnesses.
Local Open Scope R_scope.

Lemma multi_return_pass_through_witness :
  exists y1,
    match RK4_get_np_step (profile_of 1) decay_with_aux with
    | Ok step => step
    | Raise e => fun _ _ _ _ => Raise e
    end 2 3 [] 0 = Ok (PTuple [y1; 2; 3]).
Proof.
  refine (multi_return_pass_through (profile_of 1) decay_with_aux 1
            2 3 [] 0
            match RK4_get_np_step (profile_of 1) decay_with_aux with
            | Ok step => step
            | Raise e => fun _ _ _ _ => Raise e
            end eq_refl
            (fun y s => ex_intro _ (- y) (ex_intro _ [y; s] eq_refl)) _).
  left; do 5 right; left; reflexivity.
Defined.


Lemma Heun_deterministic_raises_witness :
  Heun_get_np_step (profile_of (1 / 10)) decay = Raise TypeError
  /\ raises (Heun_init nb_fixed (profile_of (1 / 10)) decay)
  /\ (false = false ->
      Heun_init nb_fixed (profile_of (1 / 10)) decay = Raise TypeError).
Proof.
  exact (Heun_deterministic_raises nb_fixed (profile_of (1 / 10)) decay
           eq_refl).
Defined.

Lemma closure_builders_failures_witness :
  Euler_get_np_step (profile_of (1 / 10)) malformed_sde
  = Raise AssertionError.
Proof.
  apply (proj1 (closure_builders_failures (profile_of (1 / 10))
                  malformed_sde AssertionError)).
  repeat split.
Defined.

Lemma code_generation_error_comes_first_witness :
  ExponentialEuler_init nb_failing (numba_profile_of (1 / 10) false) decay
  = Raise IndexError.
Proof.
  destruct (code_generation_error_comes_first nb_failing
              (numba_profile_of (1 / 10) false) decay 1 IndexError eq_refl)
    as (_ & _ & _ & _ & _ & _ & _ & H & _).
  exact (H eq_refl).
Defined.

Lemma ExponentialEuler_missing_linear_part_witness :
  exists step,
    ExponentialEuler_get_np_step (fused_profile_of (1 / 10)) no_linear_part
      = Ok step
    /\ (true = true -> List.length [- (1)] = 1%nat ->
        step 1 0 [] 0 = Raise IndexError)
    /\ (true = false -> List.length [- (1)] <> 2%nat ->
        exists msg, step 1 0 [] 0 = Raise (ValueError msg)).
Proof.
  exact (ExponentialEuler_missing_linear_part (fused_profile_of (1 / 10))
           no_linear_part 1 0 [] 0 [- (1)] eq_refl eq_refl).
Defined.

End FurtherWitnesses.

(** ** Milstein without functional noise *)

Section MilsteinFallback.
Context {V : Type} {AR : Arith V}.
Local Open Scope num_scope.

(** X15. On an equation that is deterministic or whose [g] is not callable,
    [MilsteinIto.get_np_step] and [MilsteinStra.get_np_step] return what
    [Euler.get_np_step] returns: the same closure, or the same exception; on a
    deterministic equation their step is [y0 + dt*f(y0, t, args)]. *)
Theorem Milstein_without_callable_noise_is_Euler
  (p : Profile V) (eq : DiffEquation V) :
  is_stochastic eq && callable (g eq) = false ->
  MilsteinIto_get_np_step p eq = Euler_get_np_step p eq
  /\ MilsteinStra_get_np_step p eq = Euler_get_np_step p eq
  /\ (is_stochastic eq = false ->
      forall y0 t args xi fv aux,
        f eq y0 t args = returned (is_multi_return eq) fv aux ->
        exists step,
          MilsteinIto_get_np_step p eq = Ok step
          /\ MilsteinStra_get_np_step p eq = Ok step
          /\ step y0 t args xi =
               Ok (returned (is_multi_return eq) (y0 + get_dt p * fv) aux)).
Proof.
  intros Hc.
  assert (Hi : MilsteinIto_get_np_step p eq = Euler_get_np_step p eq).
  { unfold MilsteinIto_get_np_step.
    destruct (is_stochastic eq); [| reflexivity].
    destruct (g eq); [discriminate Hc | reflexivity | reflexivity]. }
  assert (Hst : MilsteinStra_get_np_step p eq = Euler_get_np_step p eq).
  { unfold MilsteinStra_get_np_step.
    destruct (is_stochastic eq); [| reflexivity].
    destruct (g eq); [discriminate Hc | reflexivity | reflexivity]. }
  split; [exact Hi | split; [exact Hst |]].
  intros Hs y0 t args xi fv aux Hf.
  destruct (Euler_ode_step p eq y0 t args xi fv aux Hs Hf) as [step [H1 H2]].
  exists step; rewrite Hi, Hst; auto.
Qed.

End MilsteinFallback.

Lemma Milstein_without_callable_noise_is_Euler_witness :
  MilsteinIto_get_np_step (profile_of (1 / 10)) additive
  = Euler_get_np_step (profile_of (1 / 10)) additive
  /\ MilsteinStra_get_np_step (profile_of (1 / 10)) additive
     = Euler_get_np_step (profile_of (1 / 10)) additive.
Proof.
  destruct (Milstein_without_callable_noise_is_Euler (profile_of (1 / 10))
              additive eq_refl) as [Hi [Hs _]].
  exact (conj Hi Hs).
Defined.

(** ** MidPoint on a stochastic equation *)

(** X16. MidPoint rejects a stochastic equation in its code generator only:
    [MidPoint.get_nb_step] raises [NotImplementedError], so the constructor
    raises [NotImplementedError] under the numba backend, and [TypeError]
    (from the keyword call of its closure builder) without it. *)
Theorem MidPoint_on_stochastic
  {V : Type} {AR : Arith V}
  (nb_code : Scheme -> Profile V -> DiffEquation V -> list V -> res string)
  (p : Profile V) (eq : DiffEquation V) :
  is_stochastic eq = true ->
  get_nb_step nb_code MidPoint p eq [] = Raise NotImplementedError
  /\ (is_numba_bk p = true ->
      MidPoint_init nb_code p eq = Raise NotImplementedError)
  /\ (is_numba_bk p = false ->
      MidPoint_init nb_code p eq = Raise TypeError).
Proof.
  intros Hs.
  assert (Hnb : get_nb_step nb_code MidPoint p eq []
                = Raise NotImplementedError)
    by (unfold get_nb_step; rewrite Hs; reflexivity).
  split; [exact Hnb | split; intros Hbk].
  - unfold MidPoint_init, init_with, set_update_code.
    rewrite Hbk, Hnb; reflexivity.
  - unfold MidPoint_init, MidPoint_get_np_step.
    rewrite RK2_get_np_step_kw_raises.
    apply init_with_no_backend; exact Hbk.
Qed.

Lemma MidPoint_on_stochastic_witness :
  MidPoint_init nb_fixed (numba_profile_of (1 / 10) false) geometric
  = Raise NotImplementedError
  /\ MidPoint_init nb_fixed (profile_of (1 / 10)) geometric = Raise TypeError.
Proof.
  split.
  - exact (proj1 (proj2 (MidPoint_on_stochastic nb_fixed
                           (numba_profile_of (1 / 10) false) geometric
                           eq_refl)) eq_refl).
  - exact (proj2 (proj2 (MidPoint_on_stochastic nb_fixed
                           (profile_of (1 / 10)) geometric eq_refl)) eq_refl).
Defined.
